(** * orthos2: the [delete] command of the API (api/commands/delete.py)

    A shallow embedding of the dispatcher [DeleteCommand] and of the three
    handlers [DeleteMachineCommand], [DeleteSerialConsoleCommand] and
    [DeleteRemotePowerCommand], together with the properties the
    specification states about them.

    Conventions of the embedding:
    - Python [str] values are [string]s; [split], [lower] and [replace]
      are written out for ASCII text (a character above 127 is neither
      whitespace nor a letter here).
    - A handler runs in a state-and-exception monad over a [World]: the
      machine table and the trace of the calls made to the collaborators
      (repository, virtualization backend, logger).  A Python exception that
      leaves a handler is the outcome [Raise]; the world survives it.
    - Collaborators whose code lives in other modules ([data.models],
      [api.forms], [utils.misc], Django) are modelled at their interface. *)

From Stdlib Require Import String Ascii List Bool Arith Lia.
Import ListNotations.
Open Scope string_scope.
Open Scope list_scope.
Open Scope nat_scope.

Set Implicit Arguments.

(* ------------------------------------------------------------------ *)
(** ** Python strings *)

Module PyStr.

(** [str.isspace] on one ASCII character: TAB, LF, VT, FF, CR, the four
    separators FS, GS, RS, US and the blank. *)
Definition isspace (c : ascii) : bool :=
  let n := nat_of_ascii c in
  ((9 <=? n) && (n <=? 13)) || ((28 <=? n) && (n <=? 31)) || (n =? 32).

Definition isupper (c : ascii) : bool :=
  let n := nat_of_ascii c in (65 <=? n) && (n <=? 90).

Definition lower_char (c : ascii) : ascii :=
  if isupper c then ascii_of_nat (nat_of_ascii c + 32) else c.

(** [s.lower()] *)
Fixpoint lower (s : string) : string :=
  match s with
  | EmptyString => EmptyString
  | String c s' => String (lower_char c) (lower s')
  end.

(** [s.split()]: the maximal runs of non-whitespace characters, in order. *)
Fixpoint split (s : string) : list string :=
  match s with
  | EmptyString => []
  | String c s' =>
      if isspace c then split s'
      else match s' with
           | EmptyString => [String c EmptyString]
           | String d _ =>
               if isspace d then String c EmptyString :: split s'
               else match split s' with
                    | t :: ts => String c t :: ts
                    | [] => [String c EmptyString]
                    end
           end
  end.

(** Every character of [s] is whitespace. *)
Fixpoint all_space (s : string) : bool :=
  match s with
  | EmptyString => true
  | String c s' => isspace c && all_space s'
  end.

Fixpoint startswith (p s : string) : bool :=
  match p, s with
  | EmptyString, _ => true
  | String a p', String b s' => Ascii.eqb a b && startswith p' s'
  | String _ _, EmptyString => false
  end.

(** [s.replace(old, new)] for a non-empty [old] (the only use in the
    handlers is [key.replace('data.', '')]): occurrences are replaced
    from the left and do not overlap.  [skip] counts the characters of
    the current occurrence that are still to be dropped. *)
Fixpoint replace_from (old new : string) (skip : nat) (s : string) : string :=
  match s with
  | EmptyString => EmptyString
  | String c s' =>
      match skip with
      | S k => replace_from old new k s'
      | O =>
          if startswith old s
          then (new ++ replace_from old new (String.length old - 1) s')%string
          else String c (replace_from old new 0 s')
      end
  end.

Definition replace (old new s : string) : string := replace_from old new 0 s.

(** [sep.join(parts)] *)
Definition join (sep : string) (parts : list string) : string :=
  String.concat sep parts.

(** The character [c] occurs in [s]. *)
Fixpoint mem_char (c : ascii) (s : string) : bool :=
  match s with
  | EmptyString => false
  | String d s' => Ascii.eqb c d || mem_char c s'
  end.

(** Truth value of a string: the empty string is falsy. *)
Definition truthy (s : string) : bool :=
  match s with EmptyString => false | _ => true end.

End PyStr.

(** A Python [dict] with string keys, in insertion order. *)
Definition dict (V : Type) := list (string * V).

Fixpoint dict_get {V : Type} (k : string) (d : dict V) : option V :=
  match d with
  | [] => None
  | (k', v) :: d' => if String.eqb k k' then Some v else dict_get k d'
  end.

(* ------------------------------------------------------------------ *)
(** ** Requests and responses *)

(** [request.user]: Django's [AnonymousUser], or a stored [User]. *)
Inductive UserObj : Type :=
| AnonymousUser
| User (username : string) (superuser : bool).

(** [user.is_superuser]; the attribute is [False] on [AnonymousUser]. *)
Definition is_superuser (u : UserObj) : bool :=
  match u with
  | AnonymousUser => false
  | User _ su => su
  end.

(** [isinstance(user, AnonymousUser)] *)
Definition is_AnonymousUser (u : UserObj) : bool :=
  match u with
  | AnonymousUser => true
  | User _ _ => false
  end.

(** A credential as the token authentication attaches it to a request. *)
Record Token : Type := mkToken { token_key : string }.

(** A value as [json.loads] returns it: [None], a [bool], a number (by its
    literal), a [str], a [list], or a [dict] (its items; the keys of a
    parsed [dict] are distinct). *)
#[warnings="-register-all"]
Inductive JSON : Type :=
| JNull
| JBool (b : bool)
| JNumber (literal : string)
| JString (s : string)
| JArray (items : list JSON)
| JObject (members : list (string * JSON)).

(** [request.body]: bytes that are not UTF-8, text that is not JSON, or the
    text of a JSON value. *)
Inductive Body : Type :=
| Undecodable
| Malformed
| Parsed (value : JSON).

Record Request : Type := mkRequest {
  user : UserObj;
  auth : option Token;         (* request.auth: the credential, or None *)
  GET_args : option string;    (* request.GET.get('args', None) *)
  body : Body
}.

(** One removed-objects row of the table: [{'objects': .., 'count': ..}]. *)
Record Row : Type := mkRow { objects : string; count : nat }.

Definition validator := string -> option string.

(** Modelled from the spec: [api.forms] is not part of the sources.  A field
    of a form has a key, may be required, and carries validators that map a
    posted value to an error message or to nothing. *)
Record FieldSpec : Type := mkField {
  key : string;
  required : bool;
  validators : list validator
}.

Inductive Response : Type :=
| AuthRequired                                     (* AuthRequiredSerializer().as_json *)
| ErrorMessage (message : string)                  (* ErrorMessage(..).as_json *)
| Redirect (location : string)                     (* redirect(..) *)
| Input (fields : list FieldSpec) (submit : string) (order : list string)
                                                   (* InputSerializer(..).as_json *)
| Table (theader : list (string * string)) (data : list Row).
                                                   (* JsonResponse({'header': .., 'data': ..}) *)

(* ------------------------------------------------------------------ *)
(** ** The repository: machines and their sub-resources *)

Inductive RemoveOutcome : Type :=
| RemoveTrue      (* remove(machine) returned a true value *)
| RemoveFalse     (* remove(machine) returned a false value *)
| RemoveRaises.   (* remove(machine) raised *)

(** Modelled from the spec: the virtualization backend is a pluggable
    collaborator with one capability, decommissioning a machine (named by
    its fqdn here), which succeeds or fails. *)
Record VirtualizationAPI : Type := mkAPI {
  remove : string -> RemoveOutcome
}.

(** What the handler reads of the machine returned by [get_hypervisor()]. *)
Record Hypervisor : Type := mkHypervisor {
  virtualization_api : option VirtualizationAPI
}.

Record SerialConsole : Type := mkSerialConsole { sc_pk : nat }.
Record RemotePower : Type := mkRemotePower { rp_pk : nat }.

(** Modelled from the spec: [data.models.Machine] is not part of the sources.
    A machine has a primary key, a fully-qualified domain name, a flag
    telling whether it is virtual, an optional hypervisor, an optional
    serial console and an optional remote power; [dependents] counts, by
    kind label, the other records a cascading delete takes with it. *)
Record Machine : Type := mkMachine {
  pk : nat;
  fqdn : string;
  virtual : bool;
  hypervisor : option Hypervisor;
  serialconsole : option SerialConsole;
  remotepower : option RemotePower;
  dependents : dict nat
}.

Definition is_virtual_machine (m : Machine) : bool := virtual m.
Definition get_hypervisor (m : Machine) : option Hypervisor := hypervisor m.
Definition has_serialconsole (m : Machine) : bool :=
  match serialconsole m with Some _ => true | None => false end.
Definition has_remotepower (m : Machine) : bool :=
  match remotepower m with Some _ => true | None => false end.

(** The value of a [delete()] call: the total and the count per kind label. *)
Definition DeleteResult : Type := (nat * dict nat)%type.

(** [counter[k] += n] on an insertion-ordered dict. *)
Fixpoint counter_add (k : string) (n : nat) (c : dict nat) : dict nat :=
  match c with
  | [] => [(k, n)]
  | (k', v) :: c' =>
      if String.eqb k k' then (k', v + n) :: c' else (k', v) :: counter_add k n c'
  end.

Definition counter_total (c : dict nat) : nat :=
  fold_right (fun kv acc => snd kv + acc) 0 c.

(** Modelled from the spec: the repository's cascading delete reports the
    count of every entity kind it removed.  Deleting a machine removes the
    machine, its sub-resources and its dependents. *)
Definition collect_machine (m : Machine) : dict nat :=
  let c0 := [("data.Machine", 1)] in
  let c1 := if has_serialconsole m then counter_add "data.SerialConsole" 1 c0 else c0 in
  let c2 := if has_remotepower m then counter_add "data.RemotePower" 1 c1 else c1 in
  fold_left (fun c kv => counter_add (fst kv) (snd kv) c) (dependents m) c2.

Definition result_of (c : dict nat) : DeleteResult := (counter_total c, c).

(** [fqdn__iexact]: equality up to the case of ASCII letters. *)
Definition iexact (a b : string) : bool :=
  String.eqb (PyStr.lower a) (PyStr.lower b).

(** The exceptions of the model, all of them instances of [Exception], which
    [except Exception] catches; what derives from [BaseException] only (an
    interrupt, an exit) is not modelled. *)
Inductive Exn : Type :=
| IndexError
| NoReverseMatch
| JSONDecodeError
| KeyError (k : string)
| DoesNotExist
| MultipleObjectsReturned
| AttributeError
| UnboundLocalError
| RelatedObjectDoesNotExist
| BackendError
| UnicodeDecodeError
| TypeError.

Inductive Kind : Type := KMachine | KSerialConsole | KRemotePower.

(** The calls a handler makes to its collaborators, in order. *)
Inductive Event : Type :=
| EvGet (fqdn_iexact : string)                 (* Machine.objects.get(fqdn__iexact=..) *)
| EvRemove (fqdn_of_machine : string)          (* virtualization_api.remove(machine) *)
| EvDelete (k : Kind) (machine_pk : nat) (result : DeleteResult)   (* .delete() *)
| EvLog (e : Exn).                             (* logger.exception(e) *)

Record World : Type := mkWorld {
  db : list Machine;
  trace : list Event
}.

(* ------------------------------------------------------------------ *)
(** ** The monad of a handler: state and exceptions *)

Inductive Outcome (A : Type) : Type :=
| Return (a : A)
| Raise (e : Exn).
Arguments Return {A} a.
Arguments Raise {A} e.

Definition M (A : Type) : Type := World -> Outcome A * World.

Definition ret {A : Type} (a : A) : M A := fun w => (Return a, w).
Definition raise {A : Type} (e : Exn) : M A := fun w => (Raise e, w).

Definition bind {A B : Type} (m : M A) (f : A -> M B) : M B :=
  fun w =>
    match m w with
    | (Return a, w') => f a w'
    | (Raise e, w') => (Raise e, w')
    end.

(** [try: m  except Exception as e: h e] *)
Definition try_except {A : Type} (m : M A) (h : Exn -> M A) : M A :=
  fun w =>
    match m w with
    | (Return a, w') => (Return a, w')
    | (Raise e, w') => h e w'
    end.

Definition emit (ev : Event) : M unit :=
  fun w => (Return tt, mkWorld (db w) (trace w ++ [ev])).

Definition get_db : M (list Machine) := fun w => (Return (db w), w).
Definition set_db (d : list Machine) : M unit :=
  fun w => (Return tt, mkWorld d (trace w)).

Declare Scope handler_scope.
Delimit Scope handler_scope with handler.
Notation "x <- m ;; k" := (bind m (fun x => k))
  (at level 61, m at next level, right associativity) : handler_scope.
Notation "m ;;; k" := (bind m (fun _ => k))
  (at level 61, right associativity) : handler_scope.
Open Scope handler_scope.

(** An option read where Python would fail on [None]. *)
Definition expect {A : Type} (e : Exn) (o : option A) : M A :=
  match o with Some a => ret a | None => raise e end.

Definition matching (f : string) (d : list Machine) : list Machine :=
  filter (fun m => iexact (fqdn m) f) d.

(** [Machine.objects.get(fqdn__iexact=f)]: the one machine that matches;
    none or several raise. *)
Definition Machine_objects_get (f : string) : M Machine :=
  emit (EvGet f) ;;;
  d <- get_db ;;
  match matching f d with
  | [] => raise DoesNotExist
  | [m] => ret m
  | _ :: _ :: _ => raise MultipleObjectsReturned
  end.

(** [machine.delete()] *)
Definition Machine_delete (m : Machine) : M DeleteResult :=
  let result := result_of (collect_machine m) in
  d <- get_db ;;
  set_db (filter (fun x => negb (pk x =? pk m)) d) ;;;
  emit (EvDelete KMachine (pk m) result) ;;;
  ret result.

Definition drop_serialconsole (m : Machine) : Machine :=
  mkMachine (pk m) (fqdn m) (virtual m) (hypervisor m) None (remotepower m) (dependents m).
Definition drop_remotepower (m : Machine) : Machine :=
  mkMachine (pk m) (fqdn m) (virtual m) (hypervisor m) (serialconsole m) None (dependents m).

Definition update_pk (p : nat) (f : Machine -> Machine) (d : list Machine) : list Machine :=
  map (fun x => if pk x =? p then f x else x) d.

(** [machine.serialconsole.delete()]; reading the attribute fails when the
    machine has no serial console. *)
Definition serialconsole_delete (m : Machine) : M DeleteResult :=
  _ <- expect RelatedObjectDoesNotExist (serialconsole m) ;;
  let result := result_of [("data.SerialConsole", 1)] in
  d <- get_db ;;
  set_db (update_pk (pk m) drop_serialconsole d) ;;;
  emit (EvDelete KSerialConsole (pk m) result) ;;;
  ret result.

(** [machine.remotepower.delete()] *)
Definition remotepower_delete (m : Machine) : M DeleteResult :=
  _ <- expect RelatedObjectDoesNotExist (remotepower m) ;;
  let result := result_of [("data.RemotePower", 1)] in
  d <- get_db ;;
  set_db (update_pk (pk m) drop_remotepower d) ;;;
  emit (EvDelete KRemotePower (pk m) result) ;;;
  ret result.

(** [host.virtualization_api.remove(machine)] for a configured backend. *)
Definition api_remove (api : VirtualizationAPI) (m : Machine) : M bool :=
  emit (EvRemove (fqdn m)) ;;;
  match remove api (fqdn m) with
  | RemoveTrue => ret true
  | RemoveFalse => ret false
  | RemoveRaises => raise BackendError
  end.

(* ------------------------------------------------------------------ *)
(** ** Forms ([api.forms], [utils.misc.format_cli_form_errors]) *)

(** What the sources do not fix about the forms: the validators of the
    [fqdn] field beyond its being required, how the errors of one invalid
    field are rendered as one message, and what a form reads from the value
    posted under [form]: the texts of its fields, or the exception that
    reading raises (a value that is no [dict] has no fields to read). *)
Class ApiForms : Type := mkApiForms {
  fqdn_validators : list validator;
  field_message : string -> list string -> string;
  read_form : JSON -> Outcome (dict string)
}.

(** [form = XForm(data)], as far as [form.is_valid()] reads [data]. *)
Definition bind_form `{ApiForms} (data : JSON) : M (dict string) :=
  fun w => (read_form data, w).

(** Modelled from the spec: the three forms of [api.forms] are not part of
    the sources.  Each declares a single required field, the fqdn of the
    target machine. *)
Definition fqdn_field `{ApiForms} : FieldSpec := mkField "fqdn" true fqdn_validators.
Definition DeleteMachineAPIForm `{ApiForms} : list FieldSpec := [fqdn_field].
Definition DeleteSerialConsoleAPIForm `{ApiForms} : list FieldSpec := [fqdn_field].
Definition DeleteRemotePowerAPIForm `{ApiForms} : list FieldSpec := [fqdn_field].

(** A form instance: the declared fields and the posted data. *)
Record BoundForm : Type := mkForm {
  declared : list FieldSpec;
  posted : dict string
}.

Definition failures (v : string) (checks : list validator) : list string :=
  flat_map (fun chk => match chk v with Some e => [e] | None => [] end) checks.

(** Modelled from the spec: validation is per field; a required field must
    be posted with a non-empty value, and a posted value must pass every
    validator of its field. *)
Definition field_errors (f : FieldSpec) (data : dict string) : list string :=
  match dict_get (key f) data with
  | Some v =>
      if PyStr.truthy v then failures v (validators f)
      else if required f then ["This field is required."] else []
  | None => if required f then ["This field is required."] else []
  end.

(** [form.errors]: the invalid fields, in declared order, with their errors. *)
Definition errors (form : BoundForm) : dict (list string) :=
  flat_map (fun f => match field_errors f (posted form) with
                     | [] => []
                     | es => [(key f, es)]
                     end) (declared form).

(** [form.is_valid()] *)
Definition is_valid (form : BoundForm) : bool :=
  match errors form with [] => true | _ :: _ => false end.

(** [form.cleaned_data]: the values of the fields that passed. *)
Definition cleaned_data (form : BoundForm) : dict string :=
  flat_map (fun f => match field_errors f (posted form), dict_get (key f) (posted form) with
                     | [], Some v => [(key f, v)]
                     | _, _ => []
                     end) (declared form).

(** [form.get_order()] and [form.as_dict()] *)
Definition get_order (fields : list FieldSpec) : list string := map key fields.
Definition as_dict (fields : list FieldSpec) : list FieldSpec := fields.

Definition newline : string := String (ascii_of_nat 10) EmptyString.

(** Modelled from the spec: [utils.misc.format_cli_form_errors] is not part
    of the sources.  It renders one message per invalid field and joins the
    messages with newlines. *)
Definition format_cli_form_errors `{ApiForms} (form : BoundForm) : string :=
  PyStr.join newline (map (fun ke => field_message (fst ke) (snd ke)) (errors form)).

(* ------------------------------------------------------------------ *)
(** ** URL table *)

Inductive View : Type :=
| DeleteCommandView
| DeleteMachineCommandView
| DeleteSerialConsoleCommandView
| DeleteRemotePowerCommandView.

(** [url(regex, view, name=name)] *)
Record UrlPattern : Type := url {
  regex : string;
  view : View;
  name : string
}.

Definition unanchor (r : string) : string :=
  PyStr.replace "$" "" (PyStr.replace "^" "" r).

(** [reverse('api:<name>')] over the patterns of the [api] namespace: the
    path of the pattern registered under the name, relative to the place
    the namespace is mounted at. *)
Definition reverse (patterns : list UrlPattern) (viewname : string) : M string :=
  match find (fun u => String.eqb ("api:" ++ name u) viewname) patterns with
  | Some u => ret ("/" ++ unanchor (regex u))%string
  | None => raise NoReverseMatch
  end.

(** A pattern anchored at the start matches every path that starts with its
    text.  One that also ends in [$] matches its own path and, [$] matching
    before a newline that ends the string, that path followed by one
    newline. *)
Definition route_matches (r path : string) : bool :=
  if PyStr.mem_char "$" r
  then String.eqb ("/" ++ unanchor r) path
       || String.eqb ("/" ++ unanchor r ++ newline) path
  else PyStr.startswith ("/" ++ unanchor r) path.

(** The view a path is routed to: that of the first pattern that matches. *)
Definition resolve (patterns : list UrlPattern) (path : string) : option View :=
  option_map view (find (fun u => route_matches (regex u) path) patterns).

(* ------------------------------------------------------------------ *)
(** ** The handlers *)

Definition only_superusers : string :=
  "Only superusers are allowed to perform this action!".

(** [isinstance(request.user, AnonymousUser) or not request.auth] *)
Definition auth_required (request : Request) : bool :=
  is_AnonymousUser (user request)
  || match auth request with Some _ => false | None => true end.

(** [json.loads(request.body.decode('utf-8'))['form']]: decoding, parsing
    and subscripting can each raise; only a [dict] is subscripted by a
    string. *)
Definition form_payload (request : Request) : M JSON :=
  match body request with
  | Undecodable => raise UnicodeDecodeError
  | Malformed => raise JSONDecodeError
  | Parsed (JObject members) => expect (KeyError "form") (dict_get "form" members)
  | Parsed _ => raise TypeError
  end.

Definition theader : list (string * string) :=
  [("objects", "Deleted objects"); ("count", "#")].

(** The rows appended by the loop over [result[1].items()]. *)
Definition rows_of (counts : dict nat) : list Row :=
  map (fun kv => mkRow (PyStr.replace "data." "" (fst kv)) (snd kv)) counts.

(** The tail of each [try] body, from [theader = ..] to [return
    JsonResponse(response)].  [result] is the local variable of that name:
    [None] while it is unbound, and reading it unbound raises. *)
Definition deletion_table (result : option DeleteResult) : M Response :=
  r <- expect UnboundLocalError result ;;
  ret (Table theader (rows_of (snd r))).

(** [except Exception as e: logger.exception(e); return ErrorMessage(..)] *)
Definition safety_net (e : Exn) : M Response :=
  emit (EvLog e) ;;;
  ret (ErrorMessage "Something went wrong!").

(** Where a [try] body stands before the table is built: it has returned
    early with a response, or it goes on with the local variable [result]. *)
Definition Step : Type := (Response + option DeleteResult)%type.

Definition finish (step : Step) : M Response :=
  match step with
  | inl response => ret response
  | inr result => deletion_table result
  end.

Module Delete.
Definition MACHINE : string := "machine".
Definition SERIALCONSOLE : string := "serialconsole".
Definition REMOTEPOWER : string := "remotepower".
Definition as_list : list string := [MACHINE; SERIALCONSOLE; REMOTEPOWER].
End Delete.

Module DeleteMachineCommand.

Definition URL_POST : string := "/machine/delete".

Definition get_urls : list UrlPattern :=
  [url "^machine/delete" DeleteMachineCommandView "machine_delete"].

Definition get `{ApiForms} (request : Request) : M Response :=
  if auth_required request then ret AuthRequired
  else if negb (is_superuser (user request)) then ret (ErrorMessage only_superusers)
  else
    let form := DeleteMachineAPIForm in
    ret (Input (as_dict form) URL_POST (get_order form)).

(** The [if machine.is_virtual_machine(): .. else: ..] statement. *)
Definition action (machine : Machine) : M Step :=
  if is_virtual_machine machine then
    host <- expect AttributeError (get_hypervisor machine) ;;
    match virtualization_api host with
    | None => ret (inl (ErrorMessage "No virtualization API found!"))
    | Some api =>
        removed <- api_remove api machine ;;
        if (removed : bool) then
          result <- Machine_delete machine ;; ret (inr (Some result))
        else ret (inr None)
    end
  else
    result <- Machine_delete machine ;; ret (inr (Some result)).

(** The body of the [try] statement. *)
Definition post_try (form : BoundForm) : M Response :=
  f <- expect (KeyError "fqdn") (dict_get "fqdn" (cleaned_data form)) ;;
  machine <- Machine_objects_get f ;;
  step <- action machine ;;
  finish step.

Definition post `{ApiForms} (request : Request) : M Response :=
  if negb (is_superuser (user request)) then ret (ErrorMessage only_superusers)
  else
    data <- form_payload request ;;
    fields <- bind_form data ;;
    let form := mkForm DeleteMachineAPIForm fields in
    if is_valid form then try_except (post_try form) safety_net
    else ret (ErrorMessage (newline ++ format_cli_form_errors form)%string).

End DeleteMachineCommand.

Module DeleteSerialConsoleCommand.

Definition URL_POST : string := "/serialconsole/delete".

Definition get_urls : list UrlPattern :=
  [url "^serialconsole/delete" DeleteSerialConsoleCommandView "serialconsole_delete"].

Definition get `{ApiForms} (request : Request) : M Response :=
  if auth_required request then ret AuthRequired
  else if negb (is_superuser (user request)) then ret (ErrorMessage only_superusers)
  else
    let form := DeleteSerialConsoleAPIForm in
    ret (Input (as_dict form) URL_POST (get_order form)).

(** The precondition and the delete of the sub-resource. *)
Definition action (machine : Machine) : M Step :=
  if negb (has_serialconsole machine) then
    ret (inl (ErrorMessage "Machine has no serial console!"))
  else
    result <- serialconsole_delete machine ;; ret (inr (Some result)).

(** The body of the [try] statement. *)
Definition post_try (form : BoundForm) : M Response :=
  f <- expect (KeyError "fqdn") (dict_get "fqdn" (cleaned_data form)) ;;
  machine <- Machine_objects_get f ;;
  step <- action machine ;;
  finish step.

Definition post `{ApiForms} (request : Request) : M Response :=
  if negb (is_superuser (user request)) then ret (ErrorMessage only_superusers)
  else
    data <- form_payload request ;;
    fields <- bind_form data ;;
    let form := mkForm DeleteSerialConsoleAPIForm fields in
    if is_valid form then try_except (post_try form) safety_net
    else ret (ErrorMessage (newline ++ format_cli_form_errors form)%string).

End DeleteSerialConsoleCommand.

Module DeleteRemotePowerCommand.

Definition URL_POST : string := "/remotepower/delete".

Definition get_urls : list UrlPattern :=
  [url "^remotepower/delete" DeleteRemotePowerCommandView "remotepower_delete"].

Definition get `{ApiForms} (request : Request) : M Response :=
  if auth_required request then ret AuthRequired
  else if negb (is_superuser (user request)) then ret (ErrorMessage only_superusers)
  else
    let form := DeleteRemotePowerAPIForm in
    ret (Input (as_dict form) URL_POST (get_order form)).

(** The precondition and the delete of the sub-resource. *)
Definition action (machine : Machine) : M Step :=
  if negb (has_remotepower machine) then
    ret (inl (ErrorMessage "Machine has no remote power!"))
  else
    result <- remotepower_delete machine ;; ret (inr (Some result)).

(** The body of the [try] statement. *)
Definition post_try (form : BoundForm) : M Response :=
  f <- expect (KeyError "fqdn") (dict_get "fqdn" (cleaned_data form)) ;;
  machine <- Machine_objects_get f ;;
  step <- action machine ;;
  finish step.

Definition post `{ApiForms} (request : Request) : M Response :=
  if negb (is_superuser (user request)) then ret (ErrorMessage only_superusers)
  else
    data <- form_payload request ;;
    fields <- bind_form data ;;
    let form := mkForm DeleteRemotePowerAPIForm fields in
    if is_valid form then try_except (post_try form) safety_net
    else ret (ErrorMessage (newline ++ format_cli_form_errors form)%string).

End DeleteRemotePowerCommand.

Module DeleteCommand.

Definition URL : string := "/delete".

Definition get_urls : list UrlPattern :=
  [url "^delete$" DeleteCommandView "delete"].

Definition get_tabcompletion : list string := Delete.as_list.

(** The patterns of the [api] namespace these commands register. *)
Definition urlpatterns : list UrlPattern :=
  get_urls ++ DeleteMachineCommand.get_urls
           ++ DeleteSerialConsoleCommand.get_urls
           ++ DeleteRemotePowerCommand.get_urls.

(** Dispatcher for the 'delete' command. *)
Definition get (request : Request) : M Response :=
  match GET_args request with
  | None => ret (ErrorMessage "Item is missing!")
  | Some arguments =>
      if PyStr.truthy arguments then
        match PyStr.split arguments with
        | [] => raise IndexError                         (* arguments[0] *)
        | first :: sub_arguments =>
            let item := PyStr.lower first in
            if String.eqb item Delete.MACHINE then
              if negb (length sub_arguments =? 0)
              then ret (ErrorMessage "Invalid number of arguments for 'machine'!")
              else location <- reverse urlpatterns "api:machine_delete" ;;
                   ret (Redirect location)
            else if String.eqb item Delete.SERIALCONSOLE then
              if negb (length sub_arguments =? 0)
              then ret (ErrorMessage "Invalid number of arguments for 'serialconsole'!")
              else location <- reverse urlpatterns "api:serialconsole_delete" ;;
                   ret (Redirect location)
            else if String.eqb item Delete.REMOTEPOWER then
              if negb (length sub_arguments =? 0)
              then ret (ErrorMessage "Invalid number of arguments for 'remotepower'!")
              else location <- reverse urlpatterns "api:remotepower_delete" ;;
                   ret (Redirect location)
            else ret (ErrorMessage ("Unknown item '" ++ item ++ "'!")%string)
        end
      else ret (ErrorMessage "Item is missing!")
  end.

End DeleteCommand.

(* ------------------------------------------------------------------ *)
(** ** Vocabulary of the properties *)

(** Django's [user.is_authenticated]: true of every [User], false of
    [AnonymousUser]. *)
Definition is_authenticated (u : UserObj) : bool := negb (is_AnonymousUser u).

(** The six operations that sit behind the guards. *)
Definition describe_operations `{ApiForms} : list (Request -> M Response) :=
  [DeleteMachineCommand.get; DeleteSerialConsoleCommand.get; DeleteRemotePowerCommand.get].
Definition execute_operations `{ApiForms} : list (Request -> M Response) :=
  [DeleteMachineCommand.post; DeleteSerialConsoleCommand.post; DeleteRemotePowerCommand.post].

(** The form a request posts, when its body is JSON with a [form] member
    the form can read. *)
Definition posted_form `{ApiForms} (request : Request) : option (dict string) :=
  match body request with
  | Parsed (JObject members) =>
      match dict_get "form" members with
      | Some data =>
          match read_form data with
          | Return fields => Some fields
          | Raise _ => None
          end
      | None => None
      end
  | _ => None
  end.

(** The fqdn a request posts, when its form passes validation. *)
Definition validated_fqdn `{ApiForms} (request : Request) : option string :=
  match posted_form request with
  | Some data =>
      let form := mkForm [fqdn_field] data in
      if is_valid form then dict_get "fqdn" (cleaned_data form) else None
  | None => None
  end.

(** The declared fields of a form whose posted value fails validation. *)
Definition invalid_fields (form : BoundForm) : list FieldSpec :=
  filter (fun f => match field_errors f (posted form) with [] => false | _ => true end)
         (declared form).

(** [operation], run on [request] in [w], reports the cascade of a delete of
    kind [K]: whenever it answers with a table, the last call it made is a
    delete of that kind and the only one, the header is the pair
    "Deleted objects", "#", and the rows are the entries of the count
    mapping the delete returned, in order, each kind label rewritten by
    [replace('data.', '')], which turns the label [data.X] of a model [X]
    into [X]. *)
Definition reports_cascade (K : Kind) (operation : Request -> M Response)
           (request : Request) (w : World) : Prop :=
  forall (h : list (string * string)) (rows : list Row),
    fst (operation request w) = Return (Table h rows) ->
    exists (before : list Event) (p total : nat) (counts : dict nat),
      trace (snd (operation request w)) = trace w ++ before ++ [EvDelete K p (total, counts)]
      /\ (forall k' p' r', ~ In (EvDelete k' p' r') before)
      /\ h = [("objects", "Deleted objects"); ("count", "#")]
      /\ length rows = length counts
      /\ rows = map (fun kv => mkRow (PyStr.replace "data." "" (fst kv)) (snd kv)) counts
      /\ (forall (bare : string) (n : nat),
            PyStr.mem_char "." bare = false ->
            In (("data." ++ bare)%string, n) counts -> In (mkRow bare n) rows).

(** Sample data on which the statements below are exercised. *)
Module Sample.

(** The texts of the members of a posted [dict]. *)
Definition texts (members : list (string * JSON)) : dict string :=
  flat_map (fun kv => match snd kv with
                      | JString s => [(fst kv, s)]
                      | JNumber literal => [(fst kv, literal)]
                      | JBool true => [(fst kv, "True")]
                      | JBool false => [(fst kv, "False")]
                      | _ => []
                      end) members.

Definition read (data : JSON) : Outcome (dict string) :=
  match data with
  | JObject members => Return (texts members)
  | JNull => Return []
  | _ => Raise AttributeError
  end.

#[global] Instance forms : ApiForms :=
  mkApiForms [] (fun k es => (k ++ ": " ++ PyStr.join " " es)%string) read.

Definition root : UserObj := User "root" true.
Definition alice : UserObj := User "alice" false.
Definition credential : option Token := Some (mkToken "0123456789abcdef").

Definition no_backend : Hypervisor := mkHypervisor None.
Definition backend (o : RemoveOutcome) : Hypervisor :=
  mkHypervisor (Some (mkAPI (fun _ => o))).

Definition host01 : Machine :=
  mkMachine 1 "host01.example.com" false None (Some (mkSerialConsole 7)) None
            [("data.NetworkInterface", 2)].
Definition vm02 : Machine :=
  mkMachine 2 "vm02.example.com" true (Some no_backend) None None [].
Definition vm03 : Machine :=
  mkMachine 3 "vm03.example.com" true (Some (backend RemoveFalse)) None None [].
Definition vm04 : Machine :=
  mkMachine 4 "vm04.example.com" true (Some (backend RemoveRaises)) None
            (Some (mkRemotePower 9)) [].
Definition vm05 : Machine :=
  mkMachine 5 "vm05.example.com" true (Some (backend RemoveTrue)) None None [].

Definition world : World := mkWorld [host01; vm02; vm03; vm04; vm05] [].

Definition dispatch (by_user : UserObj) (args : option string) : Request :=
  mkRequest by_user credential args Malformed.

Definition submit (by_user : UserObj) (cred : option Token) (f : string) : Request :=
  mkRequest by_user cred None
            (Parsed (JObject [("form", JObject [("fqdn", JString f)])])).

End Sample.

(* ------------------------------------------------------------------ *)
(** ** Routing of a request to a method of a view class *)

Inductive Method : Type := GET | POST.

(** [X.as_view()]: a request is handed to the method of the class named
    after its HTTP method; [DeleteCommand] defines [get] only. *)
Definition as_view `{ApiForms} (v : View) (method : Method)
  : option (Request -> M Response) :=
  match v, method with
  | DeleteCommandView, GET => Some DeleteCommand.get
  | DeleteCommandView, POST => None
  | DeleteMachineCommandView, GET => Some DeleteMachineCommand.get
  | DeleteMachineCommandView, POST => Some DeleteMachineCommand.post
  | DeleteSerialConsoleCommandView, GET => Some DeleteSerialConsoleCommand.get
  | DeleteSerialConsoleCommandView, POST => Some DeleteSerialConsoleCommand.post
  | DeleteRemotePowerCommandView, GET => Some DeleteRemotePowerCommand.get
  | DeleteRemotePowerCommandView, POST => Some DeleteRemotePowerCommand.post
  end.

(** The handler that serves [method] on [path], through the URL table. *)
Definition serve `{ApiForms} (method : Method) (path : string)
  : option (Request -> M Response) :=
  match resolve DeleteCommand.urlpatterns path with
  | Some v => as_view v method
  | None => None
  end.

(* ------------------------------------------------------------------ *)
(** ** Vocabulary of the further properties *)

(** [old in s]: [old] starts some suffix of [s]. *)
Fixpoint occurs (old s : string) : bool :=
  match s with
  | EmptyString => PyStr.startswith old s
  | String _ s' => PyStr.startswith old s || occurs old s'
  end.

(** The request with its [args] parameter replaced. *)
Definition with_args (request : Request) (args : option string) : Request :=
  mkRequest (user request) (auth request) args (body request).

(** Primary keys identify the stored machines. *)
Definition pk_unique (d : list Machine) : Prop := NoDup (map pk d).

(** The exception raised before the [try] on a body without a readable
    form: by [decode], by [json.loads], by the subscript, or by the form. *)
Definition payload_error `{ApiForms} (request : Request) : Exn :=
  match body request with
  | Undecodable => UnicodeDecodeError
  | Malformed => JSONDecodeError
  | Parsed (JObject members) =>
      match dict_get "form" members with
      | Some data =>
          match read_form data with
          | Raise e => e
          | Return _ => KeyError "form"
          end
      | None => KeyError "form"
      end
  | Parsed _ => TypeError
  end.

(** Further sample data. *)
Module Fixture.

(** A machine with both sub-resources. *)
Definition rack07 : Machine :=
  mkMachine 7 "rack07.example.com" false None
            (Some (mkSerialConsole 70)) (Some (mkRemotePower 71)) [].

(** A virtual machine that lost its hypervisor. *)
Definition orphan : Machine :=
  mkMachine 8 "orphan.example.com" true None None None [].

(** Two machines whose names differ in case only. *)
Definition twin_a : Machine := mkMachine 9 "twin.example.com" false None None None [].
Definition twin_b : Machine := mkMachine 10 "TWIN.example.com" false None None None [].

Definition world : World :=
  mkWorld [Sample.host01; rack07; orphan; twin_a; twin_b; Sample.vm05] [].

End Fixture.

(* ================================================================== *)
(** * Properties *)

Unset Implicit Arguments.

(** ** Strings *)

Example split_machine_extra : PyStr.split "machine   extra" = ["machine"; "extra"].
Proof. reflexivity. Qed.

Example lower_Machine : PyStr.lower "MaChInE" = "machine".
Proof. reflexivity. Qed.

Example replace_every_occurrence : PyStr.replace "data." "" "data.xdata.y" = "xy".
Proof. reflexivity. Qed.

Example replace_other_namespace : PyStr.replace "data." "" "auth.Token" = "auth.Token".
Proof. reflexivity. Qed.

Lemma split_all_space (s : string) : PyStr.all_space s = true -> PyStr.split s = [].
Proof.
  induction s as [|c s IH]; simpl; intros H; [reflexivity|].
  apply andb_true_iff in H as [Hc Hs]. rewrite Hc. auto.
Qed.

Lemma split_cons_truthy (s first : string) (rest : list string) :
  PyStr.split s = first :: rest -> PyStr.truthy s = true.
Proof. destruct s; simpl; [discriminate | reflexivity]. Qed.

Lemma startswith_mem_char (c : ascii) (p s : string) :
  PyStr.startswith p s = true -> PyStr.mem_char c p = true -> PyStr.mem_char c s = true.
Proof.
  revert s. induction p as [|a p IH]; intros s Hp Hc; [discriminate Hc|].
  destruct s as [|b s]; [discriminate Hp|].
  cbn [PyStr.startswith] in Hp. apply andb_true_iff in Hp as [Hab Hp].
  apply Ascii.eqb_eq in Hab. subst b.
  cbn [PyStr.mem_char] in *. apply orb_true_iff in Hc as [Hc|Hc].
  - rewrite Hc. reflexivity.
  - rewrite (IH s Hp Hc). apply orb_true_r.
Qed.

Lemma startswith_data_has_dot (s : string) :
  PyStr.startswith "data." s = true -> PyStr.mem_char "." s = true.
Proof. intros H. apply (startswith_mem_char "." _ _ H). reflexivity. Qed.

(** A name without a dot is left alone by [replace('data.', '')]. *)
Lemma replace_dotless (s : string) :
  PyStr.mem_char "." s = false -> PyStr.replace "data." "" s = s.
Proof.
  unfold PyStr.replace.
  induction s as [|c s IH]; intros H; [reflexivity|].
  assert (Hs : PyStr.startswith "data." (String c s) = false).
  { destruct (PyStr.startswith "data." (String c s)) eqn:E; [|reflexivity].
    apply startswith_data_has_dot in E. congruence. }
  simpl in H. apply orb_false_iff in H as [_ H].
  change (PyStr.replace_from "data." "" 0 (String c s))
    with (if PyStr.startswith "data." (String c s)
          then ("" ++ PyStr.replace_from "data." "" (String.length "data." - 1) s)%string
          else String c (PyStr.replace_from "data." "" 0 s)).
  rewrite Hs, IH by assumption. reflexivity.
Qed.

(** The label of a model of the [data] application loses its prefix. *)
Lemma replace_data_prefix (bare : string) :
  PyStr.mem_char "." bare = false ->
  PyStr.replace "data." "" ("data." ++ bare) = bare.
Proof.
  intros H. pose proof (replace_dotless bare H) as E.
  unfold PyStr.replace in *. simpl. exact E.
Qed.

(** ** The dispatcher *)

Ltac run :=
  unfold bind, ret, raise, try_except, emit, get_db, set_db, expect,
         finish, deletion_table, safety_net; simpl.

Lemma dispatch_tokens (request : Request) (w : World)
      (args first : string) (rest : list string) :
  GET_args request = Some args ->
  PyStr.split args = first :: rest ->
  DeleteCommand.get request w =
  (let item := PyStr.lower first in
   if String.eqb item Delete.MACHINE then
     if negb (length rest =? 0)
     then (Return (ErrorMessage "Invalid number of arguments for 'machine'!"), w)
     else (Return (Redirect DeleteMachineCommand.URL_POST), w)
   else if String.eqb item Delete.SERIALCONSOLE then
     if negb (length rest =? 0)
     then (Return (ErrorMessage "Invalid number of arguments for 'serialconsole'!"), w)
     else (Return (Redirect DeleteSerialConsoleCommand.URL_POST), w)
   else if String.eqb item Delete.REMOTEPOWER then
     if negb (length rest =? 0)
     then (Return (ErrorMessage "Invalid number of arguments for 'remotepower'!"), w)
     else (Return (Redirect DeleteRemotePowerCommand.URL_POST), w)
   else (Return (ErrorMessage ("Unknown item '" ++ item ++ "'!")%string), w)).
Proof.
  intros Ha Hs. unfold DeleteCommand.get.
  rewrite Ha, (split_cons_truthy _ _ _ Hs), Hs. cbv zeta.
  destruct (String.eqb (PyStr.lower first) Delete.MACHINE);
    [destruct (negb (length rest =? 0)); reflexivity|].
  destruct (String.eqb (PyStr.lower first) Delete.SERIALCONSOLE);
    [destruct (negb (length rest =? 0)); reflexivity|].
  destruct (String.eqb (PyStr.lower first) Delete.REMOTEPOWER);
    [destruct (negb (length rest =? 0)); reflexivity|].
  reflexivity.
Qed.

Lemma nonempty_length {A : Type} (l : list A) : l <> [] -> negb (length l =? 0) = true.
Proof. destruct l; [congruence | reflexivity]. Qed.

(** C4. The dispatcher follows the error taxonomy: no [args] gives
    "Item is missing!"; [bogus] gives the unknown-item error naming it;
    [machine extra], and any known item followed by sub-arguments, gives the
    invalid-argument-count error; a single token that lowercases to one of
    [machine], [serialconsole], [remotepower] redirects to the path of that
    kind's handler, which the URL table routes to that handler.  The world
    is left as it was in every case. *)
Theorem dispatch_taxonomy (request : Request) (w : World) :
  (GET_args request = None ->
   DeleteCommand.get request w = (Return (ErrorMessage "Item is missing!"), w))
  /\ (GET_args request = Some "bogus" ->
      DeleteCommand.get request w = (Return (ErrorMessage "Unknown item 'bogus'!"), w))
  /\ (GET_args request = Some "machine extra" ->
      DeleteCommand.get request w =
      (Return (ErrorMessage "Invalid number of arguments for 'machine'!"), w))
  /\ (forall (args first : string) (rest : list string),
        GET_args request = Some args ->
        PyStr.split args = first :: rest ->
        let item := PyStr.lower first in
        (~ In item Delete.as_list ->
         DeleteCommand.get request w =
         (Return (ErrorMessage ("Unknown item '" ++ item ++ "'!")%string), w))
        /\ (In item Delete.as_list -> rest <> [] ->
            DeleteCommand.get request w =
            (Return (ErrorMessage
                       ("Invalid number of arguments for '" ++ item ++ "'!")%string), w))
        /\ (item = Delete.MACHINE -> rest = [] ->
            DeleteCommand.get request w =
            (Return (Redirect DeleteMachineCommand.URL_POST), w))
        /\ (item = Delete.SERIALCONSOLE -> rest = [] ->
            DeleteCommand.get request w =
            (Return (Redirect DeleteSerialConsoleCommand.URL_POST), w))
        /\ (item = Delete.REMOTEPOWER -> rest = [] ->
            DeleteCommand.get request w =
            (Return (Redirect DeleteRemotePowerCommand.URL_POST), w)))
  /\ resolve DeleteCommand.urlpatterns DeleteMachineCommand.URL_POST
     = Some DeleteMachineCommandView
  /\ resolve DeleteCommand.urlpatterns DeleteSerialConsoleCommand.URL_POST
     = Some DeleteSerialConsoleCommandView
  /\ resolve DeleteCommand.urlpatterns DeleteRemotePowerCommand.URL_POST
     = Some DeleteRemotePowerCommandView.
Proof.
  split; [|split; [|split; [|split]]].
  - intros H. unfold DeleteCommand.get. rewrite H. reflexivity.
  - intros H. unfold DeleteCommand.get. rewrite H. reflexivity.
  - intros H. unfold DeleteCommand.get. rewrite H. reflexivity.
  - intros args first rest Ha Hs item.
    pose proof (dispatch_tokens request w _ _ _ Ha Hs) as E. cbv zeta in E. fold item in E.
    repeat split.
    + intros Hn. rewrite E.
      destruct (String.eqb_spec item Delete.MACHINE) as [e|_];
        [exfalso; apply Hn; rewrite e; simpl; auto|].
      destruct (String.eqb_spec item Delete.SERIALCONSOLE) as [e|_];
        [exfalso; apply Hn; rewrite e; simpl; auto|].
      destruct (String.eqb_spec item Delete.REMOTEPOWER) as [e|_];
        [exfalso; apply Hn; rewrite e; simpl; auto|].
      reflexivity.
    + intros Hin Hne. rewrite E, (nonempty_length _ Hne).
      destruct Hin as [e|[e|[e|[]]]]; rewrite <- e; reflexivity.
    + intros e ->. rewrite E, e. reflexivity.
    + intros e ->. rewrite E, e. reflexivity.
    + intros e ->. rewrite E, e. reflexivity.
  - repeat split; reflexivity.
Qed.

Lemma dispatch_taxonomy_witness :
  GET_args (Sample.dispatch Sample.root (Some "  SerialConsole ")) = Some "  SerialConsole "
  /\ PyStr.split "  SerialConsole " = ["SerialConsole"]
  /\ DeleteCommand.get (Sample.dispatch Sample.root (Some "  SerialConsole ")) Sample.world
     = (Return (Redirect "/serialconsole/delete"), Sample.world).
Proof.
  split; [reflexivity|]. split; [reflexivity|].
  destruct (dispatch_taxonomy (Sample.dispatch Sample.root (Some "  SerialConsole "))
                              Sample.world) as (_ & _ & _ & H & _).
  destruct (H "  SerialConsole " "SerialConsole" [] eq_refl eq_refl)
    as (_ & _ & _ & Hsc & _).
  exact (Hsc eq_refl eq_refl).
Defined.

Lemma all_space_not_missing (args : string) :
  args <> "" -> PyStr.truthy args = true.
Proof. destruct args; [congruence | reflexivity]. Qed.

(** C10. A present, non-empty [args] made of whitespace only yields none of
    the dispatcher's responses: the token list is empty and reading its
    first element raises [IndexError], which leaves the handler.  The
    "Item is missing!" response is given exactly when [args] is absent or
    the empty string. *)
Theorem dispatch_blank_args_raises (request : Request) (w : World) :
  (forall args : string,
      GET_args request = Some args ->
      args <> "" ->
      PyStr.all_space args = true ->
      PyStr.split args = []
      /\ DeleteCommand.get request w = (Raise IndexError, w))
  /\ (fst (DeleteCommand.get request w) = Return (ErrorMessage "Item is missing!")
      <-> GET_args request = None \/ GET_args request = Some "").
Proof.
  split.
  - intros args Ha Hne Hsp. pose proof (split_all_space _ Hsp) as Hs.
    split; [exact Hs|].
    unfold DeleteCommand.get. rewrite Ha, (all_space_not_missing _ Hne), Hs. reflexivity.
  - split.
    + intros H. destruct (GET_args request) as [args|] eqn:Ha; [|auto].
      right. destruct args as [|c args]; [reflexivity|]. exfalso.
      destruct (PyStr.split (String c args)) as [|first rest] eqn:Hs.
      * unfold DeleteCommand.get in H. rewrite Ha, Hs in H. simpl in H. discriminate.
      * rewrite (dispatch_tokens request w _ _ _ Ha Hs) in H. cbv zeta in H.
        repeat match type of H with
               | context [if ?b then _ else _] => destruct b
               end; simpl in H; discriminate.
    + intros [H|H]; unfold DeleteCommand.get; rewrite H; reflexivity.
Qed.

Lemma dispatch_blank_args_raises_witness :
  GET_args (Sample.dispatch Sample.root (Some "   ")) = Some "   "
  /\ "   " <> "" /\ PyStr.all_space "   " = true
  /\ DeleteCommand.get (Sample.dispatch Sample.root (Some "   ")) Sample.world
     = (Raise IndexError, Sample.world).
Proof.
  split; [reflexivity|]. split; [discriminate|]. split; [reflexivity|].
  destruct (dispatch_blank_args_raises (Sample.dispatch Sample.root (Some "   "))
                                       Sample.world) as [H _].
  apply (H "   " eq_refl); [discriminate | reflexivity].
Defined.

(** ** The guards *)

Lemma anonymous_is_not_superuser (u : UserObj) :
  is_authenticated u = false -> is_superuser u = false.
Proof. destruct u; [reflexivity | discriminate]. Qed.

(** C1. For an unauthenticated principal (Django's [AnonymousUser]) and for
    an authenticated principal that is not a superuser, each of the six
    operations answers with the auth-required response or with the
    "Only superusers are allowed to perform this action!" error, and hands
    the world back as it received it: no record is changed and the trace is
    not extended, so neither a lookup nor a delete is reached. *)
Theorem guards_come_first `{ApiForms} (request : Request) (w : World) :
  is_authenticated (user request) = false
  \/ (is_authenticated (user request) = true /\ is_superuser (user request) = false) ->
  Forall (fun operation : Request -> M Response =>
            operation request w = (Return AuthRequired, w)
            \/ operation request w = (Return (ErrorMessage only_superusers), w))
         (describe_operations ++ execute_operations).
Proof.
  intros Hp.
  assert (Hs : is_superuser (user request) = false).
  { destruct Hp as [Ha|[_ Hs]]; [apply anonymous_is_not_superuser|]; assumption. }
  unfold describe_operations, execute_operations. simpl app.
  repeat (apply Forall_cons || apply Forall_nil);
    unfold DeleteMachineCommand.get, DeleteSerialConsoleCommand.get,
           DeleteRemotePowerCommand.get, DeleteMachineCommand.post,
           DeleteSerialConsoleCommand.post, DeleteRemotePowerCommand.post;
    rewrite Hs; simpl; try destruct (auth_required request); auto.
Qed.

Lemma guards_come_first_witness :
  (is_authenticated (user (Sample.submit AnonymousUser None "host01.example.com")) = false
   \/ (is_authenticated (user (Sample.submit AnonymousUser None "host01.example.com")) = true
       /\ is_superuser (user (Sample.submit AnonymousUser None "host01.example.com")) = false))
  /\ Forall (fun operation : Request -> M Response =>
               operation (Sample.submit AnonymousUser None "host01.example.com") Sample.world
               = (Return AuthRequired, Sample.world)
               \/ operation (Sample.submit AnonymousUser None "host01.example.com") Sample.world
                  = (Return (ErrorMessage only_superusers), Sample.world))
            (describe_operations ++ execute_operations).
Proof.
  split; [left; reflexivity|].
  apply (guards_come_first (Sample.submit AnonymousUser None "host01.example.com")
                           Sample.world).
  left; reflexivity.
Defined.

(** The describe operations also turn away a request without a credential,
    whoever its user is. *)
Lemma describe_needs_credential `{ApiForms} (request : Request) (w : World) :
  auth request = None ->
  Forall (fun operation : Request -> M Response =>
            operation request w = (Return AuthRequired, w))
         describe_operations.
Proof.
  intros Ha. unfold describe_operations.
  repeat (apply Forall_cons || apply Forall_nil);
    unfold DeleteMachineCommand.get, DeleteSerialConsoleCommand.get,
           DeleteRemotePowerCommand.get, auth_required;
    rewrite Ha, orb_true_r; reflexivity.
Qed.

(** The execute operations never read [request.auth]: their outcome is the
    same whatever credential the request carries. *)
Lemma execute_ignores_credential `{ApiForms} (request : Request)
      (other : option Token) (w : World) :
  Forall (fun operation : Request -> M Response =>
            operation (mkRequest (user request) other (GET_args request) (body request)) w
            = operation request w)
         execute_operations.
Proof.
  unfold execute_operations.
  repeat (apply Forall_cons || apply Forall_nil); reflexivity.
Qed.

(** C9, as amended.  For an authenticated superuser whose request carries a
    credential ([request.auth]), describe returns, for each of the three
    kinds, the input form whose only field is [fqdn] and whose submit path
    is the POST path of that kind ([/machine/delete],
    [/serialconsole/delete], [/remotepower/delete]), and leaves the world as
    it was.  The credential is needed: see the counterexample below. *)
Theorem describe_returns_form `{ApiForms} (request : Request) (w : World)
        (credential : Token) :
  is_authenticated (user request) = true ->
  auth request = Some credential ->
  is_superuser (user request) = true ->
  map key DeleteMachineAPIForm = ["fqdn"]
  /\ map key DeleteSerialConsoleAPIForm = ["fqdn"]
  /\ map key DeleteRemotePowerAPIForm = ["fqdn"]
  /\ DeleteMachineCommand.get request w
     = (Return (Input DeleteMachineAPIForm "/machine/delete" ["fqdn"]), w)
  /\ DeleteSerialConsoleCommand.get request w
     = (Return (Input DeleteSerialConsoleAPIForm "/serialconsole/delete" ["fqdn"]), w)
  /\ DeleteRemotePowerCommand.get request w
     = (Return (Input DeleteRemotePowerAPIForm "/remotepower/delete" ["fqdn"]), w)
  /\ DeleteMachineCommand.URL_POST = "/machine/delete"
  /\ DeleteSerialConsoleCommand.URL_POST = "/serialconsole/delete"
  /\ DeleteRemotePowerCommand.URL_POST = "/remotepower/delete".
Proof.
  intros Hu Ha Hs.
  unfold is_authenticated in Hu. apply negb_true_iff in Hu.
  unfold DeleteMachineCommand.get, DeleteSerialConsoleCommand.get,
         DeleteRemotePowerCommand.get, auth_required.
  rewrite Hu, Ha, Hs. repeat split.
Qed.

Lemma describe_returns_form_witness :
  is_authenticated (user (Sample.dispatch Sample.root None)) = true
  /\ auth (Sample.dispatch Sample.root None) = Some (mkToken "0123456789abcdef")
  /\ is_superuser (user (Sample.dispatch Sample.root None)) = true
  /\ DeleteSerialConsoleCommand.get (Sample.dispatch Sample.root None) Sample.world
     = (Return (Input [mkField "fqdn" true []] "/serialconsole/delete" ["fqdn"]),
        Sample.world).
Proof.
  split; [reflexivity|]. split; [reflexivity|]. split; [reflexivity|].
  destruct (describe_returns_form (Sample.dispatch Sample.root None) Sample.world
                                  (mkToken "0123456789abcdef") eq_refl eq_refl eq_refl)
    as (_ & _ & _ & _ & Hsc & _).
  exact Hsc.
Defined.

(** C9 as it is worded fails: a stored superuser is authenticated, yet when
    the request carries no credential each describe operation answers the
    auth-required response, not a form. *)
Lemma describe_returns_form_counterexample :
  is_authenticated (user (Sample.submit Sample.root None "host01.example.com")) = true
  /\ is_superuser (user (Sample.submit Sample.root None "host01.example.com")) = true
  /\ Forall (fun operation : Request -> M Response =>
               operation (Sample.submit Sample.root None "host01.example.com") Sample.world
               = (Return AuthRequired, Sample.world))
            describe_operations
  /\ ~ (forall (request : Request) (w : World),
          is_authenticated (user request) = true ->
          is_superuser (user request) = true ->
          exists (fields : list FieldSpec) (order : list string),
            DeleteMachineCommand.get request w
            = (Return (Input fields DeleteMachineCommand.URL_POST order), w)).
Proof.
  split; [reflexivity|]. split; [reflexivity|]. split.
  - unfold describe_operations.
    repeat (apply Forall_cons || apply Forall_nil); reflexivity.
  - intros Hall.
    destruct (Hall (Sample.submit Sample.root None "host01.example.com") Sample.world
                   eq_refl eq_refl) as (fields & order & E).
    discriminate E.
Qed.

(** ** Execute: from the request to the [try] body *)

Lemma validated_fqdn_inv `{ApiForms} (request : Request) (f : string) :
  validated_fqdn request = Some f ->
  exists data : dict string,
    posted_form request = Some data
    /\ is_valid (mkForm [fqdn_field] data) = true
    /\ dict_get "fqdn" (cleaned_data (mkForm [fqdn_field] data)) = Some f.
Proof.
  unfold validated_fqdn. intros Hv.
  destruct (posted_form request) as [data|]; [|discriminate].
  exists data. cbv zeta in Hv.
  destruct (is_valid (mkForm [fqdn_field] data)); [|discriminate]. auto.
Qed.

(** Reading the posted form, followed by what the handler does with it. *)
Lemma form_payload_posted `{ApiForms} {A : Type} (request : Request)
      (fields : dict string) (k : dict string -> M A) (w : World) :
  posted_form request = Some fields ->
  (data <- form_payload request ;; read <- bind_form data ;; k read) w = k fields w.
Proof.
  unfold posted_form, form_payload, bind_form, bind, expect, ret, raise. intros Hp.
  destruct (body request) as [| |value]; try discriminate.
  destruct value as [| | | | |members]; try discriminate.
  destruct (dict_get "form" members) as [data|]; [|discriminate].
  destruct (read_form data) as [read|e]; [|discriminate].
  injection Hp as ->. reflexivity.
Qed.

(** Without a readable form, an exception leaves the statements before the
    [try]. *)
Lemma form_payload_missing `{ApiForms} {A : Type} (request : Request)
      (k : dict string -> M A) (w : World) :
  posted_form request = None ->
  (data <- form_payload request ;; read <- bind_form data ;; k read) w
  = (Raise (payload_error request), w).
Proof.
  unfold posted_form, payload_error, form_payload, bind_form, bind, expect, ret, raise.
  intros Hp.
  destruct (body request) as [| |value]; try reflexivity.
  destruct value as [| | | | |members]; try reflexivity.
  destruct (dict_get "form" members) as [data|]; [|reflexivity].
  destruct (read_form data) as [read|e]; [discriminate | reflexivity].
Qed.

Lemma objects_get_run (f : string) (w : World) :
  Machine_objects_get f w =
  (match matching f (db w) with
   | [] => Raise DoesNotExist
   | [m] => Return m
   | _ :: _ :: _ => Raise MultipleObjectsReturned
   end, mkWorld (db w) (trace w ++ [EvGet f])).
Proof.
  unfold Machine_objects_get. run.
  destruct (matching f (db w)) as [|m [|m' l]]; reflexivity.
Qed.

(** With a superuser and a form that validates, each execute operation is
    its [try] body under the safety net, and the body starts with the
    lookup of the posted fqdn. *)
Lemma try_body_run (action : Machine -> M Step) (form : BoundForm)
      (f : string) (w : World) :
  dict_get "fqdn" (cleaned_data form) = Some f ->
  try_except (f' <- expect (KeyError "fqdn") (dict_get "fqdn" (cleaned_data form)) ;;
              machine <- Machine_objects_get f' ;;
              step <- action machine ;;
              finish step) safety_net w =
  match matching f (db w) with
  | [] => (Return (ErrorMessage "Something went wrong!"),
           mkWorld (db w) (trace w ++ [EvGet f; EvLog DoesNotExist]))
  | [m] => try_except (step <- action m ;; finish step) safety_net
                      (mkWorld (db w) (trace w ++ [EvGet f]))
  | _ :: _ :: _ => (Return (ErrorMessage "Something went wrong!"),
                    mkWorld (db w) (trace w ++ [EvGet f; EvLog MultipleObjectsReturned]))
  end.
Proof.
  intros Hc. unfold try_except at 1. unfold bind at 1. rewrite Hc.
  unfold expect at 1. unfold ret at 1. unfold bind at 1.
  rewrite objects_get_run.
  destruct (matching f (db w)) as [|m [|m' l]]; try reflexivity.
  - unfold safety_net. run. rewrite <- app_assoc. reflexivity.
  - unfold safety_net. run. rewrite <- app_assoc. reflexivity.
Qed.

Lemma machine_post_run `{ApiForms} (request : Request) (f : string) (w : World) :
  is_superuser (user request) = true ->
  validated_fqdn request = Some f ->
  exists form : BoundForm,
    dict_get "fqdn" (cleaned_data form) = Some f
    /\ DeleteMachineCommand.post request w
       = try_except (DeleteMachineCommand.post_try form) safety_net w.
Proof.
  intros Hs Hv. destruct (validated_fqdn_inv _ _ Hv) as (data & Hp & Hval & Hc).
  exists (mkForm [fqdn_field] data). split; [exact Hc|].
  unfold DeleteMachineCommand.post. rewrite Hs. cbn [negb].
  rewrite (form_payload_posted request data _ w Hp).
  unfold DeleteMachineAPIForm. rewrite Hval. reflexivity.
Qed.

Lemma serialconsole_post_run `{ApiForms} (request : Request) (f : string) (w : World) :
  is_superuser (user request) = true ->
  validated_fqdn request = Some f ->
  exists form : BoundForm,
    dict_get "fqdn" (cleaned_data form) = Some f
    /\ DeleteSerialConsoleCommand.post request w
       = try_except (DeleteSerialConsoleCommand.post_try form) safety_net w.
Proof.
  intros Hs Hv. destruct (validated_fqdn_inv _ _ Hv) as (data & Hp & Hval & Hc).
  exists (mkForm [fqdn_field] data). split; [exact Hc|].
  unfold DeleteSerialConsoleCommand.post. rewrite Hs. cbn [negb].
  rewrite (form_payload_posted request data _ w Hp).
  unfold DeleteSerialConsoleAPIForm. rewrite Hval. reflexivity.
Qed.

Lemma remotepower_post_run `{ApiForms} (request : Request) (f : string) (w : World) :
  is_superuser (user request) = true ->
  validated_fqdn request = Some f ->
  exists form : BoundForm,
    dict_get "fqdn" (cleaned_data form) = Some f
    /\ DeleteRemotePowerCommand.post request w
       = try_except (DeleteRemotePowerCommand.post_try form) safety_net w.
Proof.
  intros Hs Hv. destruct (validated_fqdn_inv _ _ Hv) as (data & Hp & Hval & Hc).
  exists (mkForm [fqdn_field] data). split; [exact Hc|].
  unfold DeleteRemotePowerCommand.post. rewrite Hs. cbn [negb].
  rewrite (form_payload_posted request data _ w Hp).
  unfold DeleteRemotePowerAPIForm. rewrite Hval. reflexivity.
Qed.

(** Rewrites an execute operation of a superuser with a validated fqdn [f]
    into the outcome of its lookup. *)
Ltac enter_try Hs Hv :=
  let form := fresh "form" in
  let Hc := fresh "Hc" in
  let E := fresh "E" in
  match goal with
  | |- context [DeleteMachineCommand.post ?r ?w] =>
      destruct (machine_post_run r _ w Hs Hv) as (form & Hc & E);
      rewrite E; clear E; unfold DeleteMachineCommand.post_try;
      rewrite (try_body_run _ _ _ _ Hc)
  | |- context [DeleteSerialConsoleCommand.post ?r ?w] =>
      destruct (serialconsole_post_run r _ w Hs Hv) as (form & Hc & E);
      rewrite E; clear E; unfold DeleteSerialConsoleCommand.post_try;
      rewrite (try_body_run _ _ _ _ Hc)
  | |- context [DeleteRemotePowerCommand.post ?r ?w] =>
      destruct (remotepower_post_run r _ w Hs Hv) as (form & Hc & E);
      rewrite E; clear E; unfold DeleteRemotePowerCommand.post_try;
      rewrite (try_body_run _ _ _ _ Hc)
  end.

(** ** Machine delete and the virtualization backend *)

Lemma no_backend_run `{ApiForms} (request : Request) (w : World)
      (f : string) (m : Machine) (host : Hypervisor) :
  is_superuser (user request) = true ->
  validated_fqdn request = Some f ->
  matching f (db w) = [m] ->
  is_virtual_machine m = true ->
  get_hypervisor m = Some host ->
  virtualization_api host = None ->
  DeleteMachineCommand.post request w
  = (Return (ErrorMessage "No virtualization API found!"),
     mkWorld (db w) (trace w ++ [EvGet f])).
Proof.
  intros Hs Hv Hm Hvirt Hh Ha.
  enter_try Hs Hv. rewrite Hm.
  unfold DeleteMachineCommand.action. rewrite Hvirt, Hh.
  run. rewrite Ha. reflexivity.
Qed.

(** C2. Machine delete, by a superuser whose posted fqdn validates and
    resolves to a virtual machine whose hypervisor has no virtualization
    backend, answers "No virtualization API found!"; the machine table is
    what it was and the only call made is the lookup.  Repeating the request
    on the resulting world gives the same answer and again leaves the table
    alone. *)
Theorem no_backend_is_configuration_error `{ApiForms} (request : Request) (w : World)
        (f : string) (m : Machine) (host : Hypervisor) :
  is_superuser (user request) = true ->
  validated_fqdn request = Some f ->
  matching f (db w) = [m] ->
  is_virtual_machine m = true ->
  get_hypervisor m = Some host ->
  virtualization_api host = None ->
  fst (DeleteMachineCommand.post request w)
  = Return (ErrorMessage "No virtualization API found!")
  /\ db (snd (DeleteMachineCommand.post request w)) = db w
  /\ trace (snd (DeleteMachineCommand.post request w)) = trace w ++ [EvGet f]
  /\ fst (DeleteMachineCommand.post request (snd (DeleteMachineCommand.post request w)))
     = Return (ErrorMessage "No virtualization API found!")
  /\ db (snd (DeleteMachineCommand.post request (snd (DeleteMachineCommand.post request w))))
     = db w.
Proof.
  intros Hs Hv Hm Hvirt Hh Ha.
  rewrite (no_backend_run request w f m host Hs Hv Hm Hvirt Hh Ha). cbn [fst snd db trace].
  rewrite (no_backend_run request (mkWorld (db w) (trace w ++ [EvGet f]))
                          f m host Hs Hv Hm Hvirt Hh Ha).
  repeat split.
Qed.

Lemma no_backend_is_configuration_error_witness :
  is_superuser (user (Sample.submit Sample.root Sample.credential "VM02.example.com")) = true
  /\ validated_fqdn (Sample.submit Sample.root Sample.credential "VM02.example.com")
     = Some "VM02.example.com"
  /\ matching "VM02.example.com" (db Sample.world) = [Sample.vm02]
  /\ is_virtual_machine Sample.vm02 = true
  /\ get_hypervisor Sample.vm02 = Some Sample.no_backend
  /\ virtualization_api Sample.no_backend = None
  /\ fst (DeleteMachineCommand.post
            (Sample.submit Sample.root Sample.credential "VM02.example.com") Sample.world)
     = Return (ErrorMessage "No virtualization API found!")
  /\ db (snd (DeleteMachineCommand.post
                (Sample.submit Sample.root Sample.credential "VM02.example.com")
                Sample.world))
     = db Sample.world.
Proof.
  do 6 (split; [reflexivity|]).
  destruct (no_backend_is_configuration_error (H := Sample.forms)
              (Sample.submit Sample.root Sample.credential "VM02.example.com")
              Sample.world "VM02.example.com" Sample.vm02 Sample.no_backend
              eq_refl eq_refl eq_refl eq_refl eq_refl eq_refl)
    as (H1 & H2 & _).
  split; [exact H1 | exact H2].
Defined.

(** What the safety net logs when the backend's [remove] does not succeed:
    the exception [remove] raised, or the unbound [result] read by the
    table loop after a false return. *)
Lemma failed_decommission_run `{ApiForms} (request : Request) (w : World)
      (f : string) (m : Machine) (host : Hypervisor) (api : VirtualizationAPI) :
  is_superuser (user request) = true ->
  validated_fqdn request = Some f ->
  matching f (db w) = [m] ->
  is_virtual_machine m = true ->
  get_hypervisor m = Some host ->
  virtualization_api host = Some api ->
  remove api (fqdn m) <> RemoveTrue ->
  DeleteMachineCommand.post request w
  = (Return (ErrorMessage "Something went wrong!"),
     mkWorld (db w)
             (trace w ++ [EvGet f; EvRemove (fqdn m);
                          EvLog (match remove api (fqdn m) with
                                 | RemoveRaises => BackendError
                                 | _ => UnboundLocalError
                                 end)])).
Proof.
  intros Hs Hv Hm Hvirt Hh Ha Hr.
  enter_try Hs Hv. rewrite Hm.
  unfold DeleteMachineCommand.action. rewrite Hvirt, Hh.
  run. rewrite Ha. unfold api_remove. run.
  destruct (remove api (fqdn m)); [congruence| |];
    simpl; repeat rewrite <- app_assoc; reflexivity.
Qed.

(** C3. In machine delete of a virtual machine (superuser, validated fqdn,
    hypervisor with a backend), whenever the backend's decommission call
    fails, by a false return or by raising, the request ends in the failure
    response "Something went wrong!", the machine is still stored and the
    table is what it was, and the calls made are the lookup, the
    decommission and the logging of the failure: no delete is issued and no
    table is reported. *)
Theorem failed_decommission_keeps_machine `{ApiForms} (request : Request) (w : World)
        (f : string) (m : Machine) (host : Hypervisor) (api : VirtualizationAPI) :
  is_superuser (user request) = true ->
  validated_fqdn request = Some f ->
  matching f (db w) = [m] ->
  is_virtual_machine m = true ->
  get_hypervisor m = Some host ->
  virtualization_api host = Some api ->
  remove api (fqdn m) <> RemoveTrue ->
  fst (DeleteMachineCommand.post request w) = Return (ErrorMessage "Something went wrong!")
  /\ db (snd (DeleteMachineCommand.post request w)) = db w
  /\ In m (db (snd (DeleteMachineCommand.post request w)))
  /\ exists e : Exn,
      trace (snd (DeleteMachineCommand.post request w))
      = trace w ++ [EvGet f; EvRemove (fqdn m); EvLog e].
Proof.
  intros Hs Hv Hm Hvirt Hh Ha Hr.
  rewrite (failed_decommission_run request w f m host api Hs Hv Hm Hvirt Hh Ha Hr).
  cbn [fst snd db trace]. repeat split.
  - assert (Hin : In m (matching f (db w))) by (rewrite Hm; left; reflexivity).
    apply filter_In in Hin. tauto.
  - eexists. reflexivity.
Qed.

Lemma failed_decommission_keeps_machine_witness :
  is_superuser (user (Sample.submit Sample.root Sample.credential "vm03.example.com")) = true
  /\ validated_fqdn (Sample.submit Sample.root Sample.credential "vm03.example.com")
     = Some "vm03.example.com"
  /\ matching "vm03.example.com" (db Sample.world) = [Sample.vm03]
  /\ is_virtual_machine Sample.vm03 = true
  /\ get_hypervisor Sample.vm03 = Some (Sample.backend RemoveFalse)
  /\ virtualization_api (Sample.backend RemoveFalse) = Some (mkAPI (fun _ => RemoveFalse))
  /\ remove (mkAPI (fun _ => RemoveFalse)) (fqdn Sample.vm03) <> RemoveTrue
  /\ fst (DeleteMachineCommand.post
            (Sample.submit Sample.root Sample.credential "vm03.example.com") Sample.world)
     = Return (ErrorMessage "Something went wrong!")
  /\ db (snd (DeleteMachineCommand.post
                (Sample.submit Sample.root Sample.credential "vm03.example.com")
                Sample.world))
     = db Sample.world.
Proof.
  do 6 (split; [reflexivity|]).
  split; [discriminate|].
  destruct (failed_decommission_keeps_machine (H := Sample.forms)
              (Sample.submit Sample.root Sample.credential "vm03.example.com")
              Sample.world "vm03.example.com" Sample.vm03
              (Sample.backend RemoveFalse) (mkAPI (fun _ => RemoveFalse))
              eq_refl eq_refl eq_refl eq_refl eq_refl eq_refl
              (fun E : RemoveFalse = RemoveTrue =>
                 eq_ind RemoveFalse
                        (fun o => match o with RemoveFalse => True | _ => False end)
                        I RemoveTrue E))
    as (H1 & H2 & _).
  split; [exact H1 | exact H2].
Defined.

(** ** Lookup failures *)

Lemma filter_swap {A : Type} (p q : A -> bool) (l : list A) :
  filter p (filter q l) = filter q (filter p l).
Proof.
  induction l as [|a l IH]; [reflexivity|]. simpl.
  destruct (p a) eqn:Hp, (q a) eqn:Hq; simpl; rewrite ?Hp, ?Hq, IH; reflexivity.
Qed.

(** Once the one machine matching [f] is removed, nothing matches [f]. *)
Lemma matching_after_delete (f : string) (m : Machine) (d : list Machine) :
  matching f d = [m] ->
  matching f (filter (fun x => negb (pk x =? pk m)) d) = [].
Proof.
  unfold matching. intros Hm. rewrite filter_swap, Hm. simpl.
  rewrite Nat.eqb_refl. reflexivity.
Qed.

Lemma lookup_failure_run `{ApiForms} (request : Request) (w : World) (f : string) :
  is_superuser (user request) = true ->
  validated_fqdn request = Some f ->
  matching f (db w) = [] ->
  Forall (fun operation : Request -> M Response =>
            operation request w
            = (Return (ErrorMessage "Something went wrong!"),
               mkWorld (db w) (trace w ++ [EvGet f; EvLog DoesNotExist])))
         execute_operations.
Proof.
  intros Hs Hv Hm. unfold execute_operations.
  repeat (apply Forall_cons || apply Forall_nil);
    enter_try Hs Hv; rewrite Hm; reflexivity.
Qed.

(** A table is answered only behind the guard and the validation. *)
Lemma machine_table_validated `{ApiForms} (request : Request) (w : World)
      (h : list (string * string)) (rows : list Row) :
  fst (DeleteMachineCommand.post request w) = Return (Table h rows) ->
  is_superuser (user request) = true /\ exists f : string, validated_fqdn request = Some f.
Proof.
  unfold DeleteMachineCommand.post, validated_fqdn.
  destruct (is_superuser (user request)); [|discriminate]. cbn [negb].
  destruct (posted_form request) as [data|] eqn:Hp;
    [rewrite (form_payload_posted request data _ w Hp)
    |rewrite (form_payload_missing request _ w Hp); discriminate].
  unfold DeleteMachineAPIForm. cbv zeta.
  destruct (is_valid (mkForm [fqdn_field] data)); [|discriminate].
  destruct (dict_get "fqdn" (cleaned_data (mkForm [fqdn_field] data))) as [f|] eqn:Hc.
  - intros _. split; [reflexivity|]. exists f. reflexivity.
  - unfold DeleteMachineCommand.post_try. run. rewrite Hc. discriminate.
Qed.

Lemma serialconsole_table_validated `{ApiForms} (request : Request) (w : World)
      (h : list (string * string)) (rows : list Row) :
  fst (DeleteSerialConsoleCommand.post request w) = Return (Table h rows) ->
  is_superuser (user request) = true /\ exists f : string, validated_fqdn request = Some f.
Proof.
  unfold DeleteSerialConsoleCommand.post, validated_fqdn.
  destruct (is_superuser (user request)); [|discriminate]. cbn [negb].
  destruct (posted_form request) as [data|] eqn:Hp;
    [rewrite (form_payload_posted request data _ w Hp)
    |rewrite (form_payload_missing request _ w Hp); discriminate].
  unfold DeleteSerialConsoleAPIForm. cbv zeta.
  destruct (is_valid (mkForm [fqdn_field] data)); [|discriminate].
  destruct (dict_get "fqdn" (cleaned_data (mkForm [fqdn_field] data))) as [f|] eqn:Hc.
  - intros _. split; [reflexivity|]. exists f. reflexivity.
  - unfold DeleteSerialConsoleCommand.post_try. run. rewrite Hc. discriminate.
Qed.

Lemma remotepower_table_validated `{ApiForms} (request : Request) (w : World)
      (h : list (string * string)) (rows : list Row) :
  fst (DeleteRemotePowerCommand.post request w) = Return (Table h rows) ->
  is_superuser (user request) = true /\ exists f : string, validated_fqdn request = Some f.
Proof.
  unfold DeleteRemotePowerCommand.post, validated_fqdn.
  destruct (is_superuser (user request)); [|discriminate]. cbn [negb].
  destruct (posted_form request) as [data|] eqn:Hp;
    [rewrite (form_payload_posted request data _ w Hp)
    |rewrite (form_payload_missing request _ w Hp); discriminate].
  unfold DeleteRemotePowerAPIForm. cbv zeta.
  destruct (is_valid (mkForm [fqdn_field] data)); [|discriminate].
  destruct (dict_get "fqdn" (cleaned_data (mkForm [fqdn_field] data))) as [f|] eqn:Hc.
  - intros _. split; [reflexivity|]. exists f. reflexivity.
  - unfold DeleteRemotePowerCommand.post_try. run. rewrite Hc. discriminate.
Qed.

(** A table answer of machine delete, read backwards: the guard and the
    validation passed, the lookup found one machine, and that machine was
    deleted, after its decommission when it is virtual. *)
Lemma machine_post_table `{ApiForms} (request : Request) (w : World)
      (h : list (string * string)) (rows : list Row) :
  fst (DeleteMachineCommand.post request w) = Return (Table h rows) ->
  exists (f : string) (m : Machine) (before : list Event),
    is_superuser (user request) = true
    /\ validated_fqdn request = Some f
    /\ matching f (db w) = [m]
    /\ (before = [EvGet f] \/ before = [EvGet f; EvRemove (fqdn m)])
    /\ h = theader
    /\ rows = rows_of (collect_machine m)
    /\ snd (DeleteMachineCommand.post request w)
       = mkWorld (filter (fun x => negb (pk x =? pk m)) (db w))
                 (trace w ++ before
                          ++ [EvDelete KMachine (pk m) (result_of (collect_machine m))]).
Proof.
  intros Ht.
  destruct (machine_table_validated request w h rows Ht) as (Hs & f & Hv).
  exists f. revert Ht. enter_try Hs Hv.
  destruct (matching f (db w)) as [|m [|m' l]] eqn:Hm; [discriminate| |discriminate].
  intros Ht. exists m. revert Ht.
  unfold DeleteMachineCommand.action, is_virtual_machine, get_hypervisor,
         api_remove, Machine_delete.
  destruct (virtual m).
  - destruct (hypervisor m) as [host|]; [|discriminate].
    run. destruct (virtualization_api host) as [api|]; [|discriminate].
    run. destruct (remove api (fqdn m)); [|discriminate|discriminate].
    simpl. intros E. injection E as <- <-.
    exists [EvGet f; EvRemove (fqdn m)]. repeat split; auto.
    repeat rewrite <- app_assoc. reflexivity.
  - run. intros E. injection E as <- <-.
    exists [EvGet f]. repeat split; auto.
    repeat rewrite <- app_assoc. reflexivity.
Qed.

(** C5. When the validated fqdn of a superuser's request matches no stored
    machine, each of the three execute operations answers with the opaque
    "Something went wrong!": the lookup raises [DoesNotExist], the safety net
    logs it, the machine table is untouched.
    In particular, a second machine delete after one that answered with a
    table finds no machine and answers "Something went wrong!", not a
    table. *)
Theorem lookup_miss_is_internal_error `{ApiForms} (request : Request) (w : World) :
  (forall f : string,
      is_superuser (user request) = true ->
      validated_fqdn request = Some f ->
      matching f (db w) = [] ->
      Forall (fun operation : Request -> M Response =>
                fst (operation request w) = Return (ErrorMessage "Something went wrong!")
                /\ db (snd (operation request w)) = db w
                /\ trace (snd (operation request w))
                   = trace w ++ [EvGet f; EvLog DoesNotExist])
             execute_operations)
  /\ (forall (h : list (string * string)) (rows : list Row),
        fst (DeleteMachineCommand.post request w) = Return (Table h rows) ->
        fst (DeleteMachineCommand.post request (snd (DeleteMachineCommand.post request w)))
        = Return (ErrorMessage "Something went wrong!")
        /\ db (snd (DeleteMachineCommand.post request
                      (snd (DeleteMachineCommand.post request w))))
           = db (snd (DeleteMachineCommand.post request w))).
Proof.
  split.
  - intros f Hs Hv Hm.
    pose proof (lookup_failure_run request w f Hs Hv Hm) as Hall.
    eapply Forall_impl; [|exact Hall].
    intros operation E. cbv beta in E. rewrite E. repeat split.
  - intros h rows Ht.
    destruct (machine_post_table request w h rows Ht)
      as (f & m & before & Hs & Hv & Hm & _ & _ & _ & Hw).
    rewrite Hw.
    pose proof (lookup_failure_run request
                  (mkWorld (filter (fun x => negb (pk x =? pk m)) (db w))
                           (trace w ++ before
                              ++ [EvDelete KMachine (pk m) (result_of (collect_machine m))]))
                  f Hs Hv (matching_after_delete f m (db w) Hm)) as Hall.
    unfold execute_operations in Hall. apply Forall_inv in Hall.
    rewrite Hall. split; reflexivity.
Qed.

Lemma lookup_miss_is_internal_error_witness :
  is_superuser (user (Sample.submit Sample.root Sample.credential "gone.example.com")) = true
  /\ validated_fqdn (Sample.submit Sample.root Sample.credential "gone.example.com")
     = Some "gone.example.com"
  /\ matching "gone.example.com" (db Sample.world) = []
  /\ Forall (fun operation : Request -> M Response =>
               fst (operation (Sample.submit Sample.root Sample.credential "gone.example.com")
                              Sample.world)
               = Return (ErrorMessage "Something went wrong!")
               /\ db (snd (operation
                             (Sample.submit Sample.root Sample.credential "gone.example.com")
                             Sample.world)) = db Sample.world
               /\ trace (snd (operation
                                (Sample.submit Sample.root Sample.credential
                                               "gone.example.com")
                                Sample.world))
                  = trace Sample.world ++ [EvGet "gone.example.com"; EvLog DoesNotExist])
            execute_operations.
Proof.
  do 3 (split; [reflexivity|]).
  destruct (lookup_miss_is_internal_error (H := Sample.forms)
              (Sample.submit Sample.root Sample.credential "gone.example.com")
              Sample.world) as [Hmiss _].
  exact (Hmiss "gone.example.com" eq_refl eq_refl eq_refl).
Defined.

(** ** Sub-resources *)

Lemma missing_serialconsole_run `{ApiForms} (request : Request) (w : World)
      (f : string) (m : Machine) :
  is_superuser (user request) = true ->
  validated_fqdn request = Some f ->
  matching f (db w) = [m] ->
  has_serialconsole m = false ->
  DeleteSerialConsoleCommand.post request w
  = (Return (ErrorMessage "Machine has no serial console!"),
     mkWorld (db w) (trace w ++ [EvGet f])).
Proof.
  intros Hs Hv Hm Hno. enter_try Hs Hv. rewrite Hm.
  unfold DeleteSerialConsoleCommand.action. rewrite Hno. reflexivity.
Qed.

Lemma missing_remotepower_run `{ApiForms} (request : Request) (w : World)
      (f : string) (m : Machine) :
  is_superuser (user request) = true ->
  validated_fqdn request = Some f ->
  matching f (db w) = [m] ->
  has_remotepower m = false ->
  DeleteRemotePowerCommand.post request w
  = (Return (ErrorMessage "Machine has no remote power!"),
     mkWorld (db w) (trace w ++ [EvGet f])).
Proof.
  intros Hs Hv Hm Hno. enter_try Hs Hv. rewrite Hm.
  unfold DeleteRemotePowerCommand.action. rewrite Hno. reflexivity.
Qed.

(** C6. For a machine without a serial console, serial-console delete (by a
    superuser, with the machine's fqdn validated) answers "Machine has no
    serial console!"; for a machine without a remote power, remote-power
    delete answers "Machine has no remote power!".  In both cases the machine
    table is what it was and the only call made is the lookup. *)
Theorem missing_subresource_is_precondition_failure `{ApiForms}
        (request : Request) (w : World) (f : string) (m : Machine) :
  is_superuser (user request) = true ->
  validated_fqdn request = Some f ->
  matching f (db w) = [m] ->
  (has_serialconsole m = false ->
   fst (DeleteSerialConsoleCommand.post request w)
   = Return (ErrorMessage "Machine has no serial console!")
   /\ db (snd (DeleteSerialConsoleCommand.post request w)) = db w
   /\ trace (snd (DeleteSerialConsoleCommand.post request w)) = trace w ++ [EvGet f])
  /\ (has_remotepower m = false ->
      fst (DeleteRemotePowerCommand.post request w)
      = Return (ErrorMessage "Machine has no remote power!")
      /\ db (snd (DeleteRemotePowerCommand.post request w)) = db w
      /\ trace (snd (DeleteRemotePowerCommand.post request w)) = trace w ++ [EvGet f]).
Proof.
  intros Hs Hv Hm. split; intros Hno.
  - rewrite (missing_serialconsole_run request w f m Hs Hv Hm Hno). repeat split.
  - rewrite (missing_remotepower_run request w f m Hs Hv Hm Hno). repeat split.
Qed.

Lemma missing_subresource_is_precondition_failure_witness :
  is_superuser (user (Sample.submit Sample.root Sample.credential "host01.example.com")) = true
  /\ validated_fqdn (Sample.submit Sample.root Sample.credential "host01.example.com")
     = Some "host01.example.com"
  /\ matching "host01.example.com" (db Sample.world) = [Sample.host01]
  /\ has_remotepower Sample.host01 = false
  /\ fst (DeleteRemotePowerCommand.post
            (Sample.submit Sample.root Sample.credential "host01.example.com") Sample.world)
     = Return (ErrorMessage "Machine has no remote power!")
  /\ db (snd (DeleteRemotePowerCommand.post
                (Sample.submit Sample.root Sample.credential "host01.example.com")
                Sample.world))
     = db Sample.world.
Proof.
  do 4 (split; [reflexivity|]).
  destruct (missing_subresource_is_precondition_failure (H := Sample.forms)
              (Sample.submit Sample.root Sample.credential "host01.example.com")
              Sample.world "host01.example.com" Sample.host01
              eq_refl eq_refl eq_refl) as [_ Hrp].
  destruct (Hrp eq_refl) as (H1 & H2 & _).
  split; [exact H1 | exact H2].
Defined.

(** ** Validation *)

Lemma errors_invalid_fields (form : BoundForm) :
  map fst (errors form) = map key (invalid_fields form).
Proof.
  destruct form as [fields data]. unfold errors, invalid_fields. simpl.
  induction fields as [|fd fields IH]; [reflexivity|]. simpl.
  destruct (field_errors fd data); simpl; rewrite IH; reflexivity.
Qed.

Lemma invalid_has_errors (form : BoundForm) : is_valid form = false -> errors form <> [].
Proof. unfold is_valid. destruct (errors form); [discriminate | discriminate]. Qed.

(** C7. When the form posted by a superuser fails validation, each of the
    three execute operations answers with the error whose message is a
    newline followed by the messages of the invalid fields, one per field in
    declared order, joined by newlines; the world is handed back as it was
    received, so no lookup is made and nothing is changed. *)
Theorem invalid_form_is_validation_error `{ApiForms} (request : Request) (w : World)
        (data : dict string) :
  is_superuser (user request) = true ->
  posted_form request = Some data ->
  is_valid (mkForm [fqdn_field] data) = false ->
  Forall (fun operation : Request -> M Response =>
            operation request w
            = (Return (ErrorMessage
                         (newline ++
                          PyStr.join newline
                            (map (fun ke => field_message (fst ke) (snd ke))
                                 (errors (mkForm [fqdn_field] data))))%string), w))
         execute_operations
  /\ map fst (errors (mkForm [fqdn_field] data))
     = map key (invalid_fields (mkForm [fqdn_field] data))
  /\ errors (mkForm [fqdn_field] data) <> [].
Proof.
  intros Hs Hp Hbad. split; [|split].
  - unfold execute_operations.
    repeat (apply Forall_cons || apply Forall_nil);
      unfold DeleteMachineCommand.post, DeleteSerialConsoleCommand.post,
             DeleteRemotePowerCommand.post;
      rewrite Hs; cbn [negb];
      rewrite (form_payload_posted request data _ w Hp);
      unfold DeleteMachineAPIForm, DeleteSerialConsoleAPIForm, DeleteRemotePowerAPIForm;
      rewrite Hbad; reflexivity.
  - apply errors_invalid_fields.
  - apply invalid_has_errors. exact Hbad.
Qed.

Lemma invalid_form_is_validation_error_witness :
  is_superuser (user (Sample.submit Sample.root Sample.credential "")) = true
  /\ posted_form (Sample.submit Sample.root Sample.credential "") = Some [("fqdn", "")]
  /\ is_valid (mkForm [fqdn_field] [("fqdn", "")]) = false
  /\ DeleteMachineCommand.post (Sample.submit Sample.root Sample.credential "") Sample.world
     = (Return (ErrorMessage (newline ++ "fqdn: This field is required.")%string),
        Sample.world).
Proof.
  do 3 (split; [reflexivity|]).
  destruct (invalid_form_is_validation_error (H := Sample.forms)
              (Sample.submit Sample.root Sample.credential "") Sample.world
              [("fqdn", "")] eq_refl eq_refl eq_refl) as [Hall _].
  unfold execute_operations in Hall. apply Forall_inv in Hall. exact Hall.
Defined.

(** ** The table of deleted objects *)

Lemma serialconsole_post_table `{ApiForms} (request : Request) (w : World)
      (h : list (string * string)) (rows : list Row) :
  fst (DeleteSerialConsoleCommand.post request w) = Return (Table h rows) ->
  exists (f : string) (m : Machine),
    matching f (db w) = [m]
    /\ has_serialconsole m = true
    /\ h = theader
    /\ rows = rows_of [("data.SerialConsole", 1)]
    /\ snd (DeleteSerialConsoleCommand.post request w)
       = mkWorld (update_pk (pk m) drop_serialconsole (db w))
                 (trace w ++ [EvGet f]
                          ++ [EvDelete KSerialConsole (pk m)
                                       (result_of [("data.SerialConsole", 1)])]).
Proof.
  intros Ht.
  destruct (serialconsole_table_validated request w h rows Ht) as (Hs & f & Hv).
  exists f. revert Ht. enter_try Hs Hv.
  destruct (matching f (db w)) as [|m [|m' l]] eqn:Hm; [discriminate| |discriminate].
  intros Ht. exists m. revert Ht.
  unfold DeleteSerialConsoleCommand.action, has_serialconsole, serialconsole_delete.
  destruct (serialconsole m) as [sc|]; [|discriminate].
  run. intros E. injection E as <- <-.
  repeat split; auto. repeat rewrite <- app_assoc. reflexivity.
Qed.

Lemma remotepower_post_table `{ApiForms} (request : Request) (w : World)
      (h : list (string * string)) (rows : list Row) :
  fst (DeleteRemotePowerCommand.post request w) = Return (Table h rows) ->
  exists (f : string) (m : Machine),
    matching f (db w) = [m]
    /\ has_remotepower m = true
    /\ h = theader
    /\ rows = rows_of [("data.RemotePower", 1)]
    /\ snd (DeleteRemotePowerCommand.post request w)
       = mkWorld (update_pk (pk m) drop_remotepower (db w))
                 (trace w ++ [EvGet f]
                          ++ [EvDelete KRemotePower (pk m)
                                       (result_of [("data.RemotePower", 1)])]).
Proof.
  intros Ht.
  destruct (remotepower_table_validated request w h rows Ht) as (Hs & f & Hv).
  exists f. revert Ht. enter_try Hs Hv.
  destruct (matching f (db w)) as [|m [|m' l]] eqn:Hm; [discriminate| |discriminate].
  intros Ht. exists m. revert Ht.
  unfold DeleteRemotePowerCommand.action, has_remotepower, remotepower_delete.
  destruct (remotepower m) as [rp|]; [|discriminate].
  run. intros E. injection E as <- <-.
  repeat split; auto. repeat rewrite <- app_assoc. reflexivity.
Qed.

(** The rows built from a count mapping: one per entry, in order, and an
    entry labelled [data.X] yields the row of [X]. *)
Lemma rows_of_counts (counts : dict nat) :
  length (rows_of counts) = length counts
  /\ rows_of counts
     = map (fun kv => mkRow (PyStr.replace "data." "" (fst kv)) (snd kv)) counts
  /\ (forall (bare : string) (n : nat),
        PyStr.mem_char "." bare = false ->
        In (("data." ++ bare)%string, n) counts -> In (mkRow bare n) (rows_of counts)).
Proof.
  split; [apply length_map|]. split; [reflexivity|].
  intros bare n Hdot Hin. unfold rows_of.
  apply in_map_iff. exists (("data." ++ bare)%string, n). split; [|exact Hin].
  cbn [fst snd]. rewrite (replace_data_prefix bare Hdot). reflexivity.
Qed.

(** C8. When an execute operation answers with a table, the header is the
    pair "Deleted objects", "#" and the rows are exactly the entries of the
    count mapping returned by the one delete the operation issued: one row
    per kind, in order, carrying the count of the kind and its label
    rewritten by [replace('data.', '')], so that [data.Machine] is reported
    as [Machine]. *)
Theorem table_reports_cascade `{ApiForms} (request : Request) (w : World) :
  reports_cascade KMachine DeleteMachineCommand.post request w
  /\ reports_cascade KSerialConsole DeleteSerialConsoleCommand.post request w
  /\ reports_cascade KRemotePower DeleteRemotePowerCommand.post request w
  /\ PyStr.replace "data." "" "data.Machine" = "Machine".
Proof.
  split; [|split; [|split; [|reflexivity]]]; intros h rows Ht.
  - destruct (machine_post_table request w h rows Ht)
      as (f & m & before & _ & _ & _ & Hb & -> & -> & ->).
    exists before, (pk m), (counter_total (collect_machine m)), (collect_machine m).
    cbn [snd trace]. split; [reflexivity|]. split.
    + intros k' p' r' Hin.
      destruct Hb as [-> | ->]; simpl in Hin;
        repeat (destruct Hin as [Hin|Hin]; [discriminate|]); exact Hin.
    + split; [reflexivity|]. apply rows_of_counts.
  - destruct (serialconsole_post_table request w h rows Ht)
      as (f & m & _ & _ & -> & -> & ->).
    exists [EvGet f], (pk m), (counter_total [("data.SerialConsole", 1)]),
           [("data.SerialConsole", 1)].
    cbn [snd trace]. split; [reflexivity|]. split.
    + intros k' p' r' Hin. simpl in Hin.
      repeat (destruct Hin as [Hin|Hin]; [discriminate|]); exact Hin.
    + split; [reflexivity|]. apply rows_of_counts.
  - destruct (remotepower_post_table request w h rows Ht)
      as (f & m & _ & _ & -> & -> & ->).
    exists [EvGet f], (pk m), (counter_total [("data.RemotePower", 1)]),
           [("data.RemotePower", 1)].
    cbn [snd trace]. split; [reflexivity|]. split.
    + intros k' p' r' Hin. simpl in Hin.
      repeat (destruct Hin as [Hin|Hin]; [discriminate|]); exact Hin.
    + split; [reflexivity|]. apply rows_of_counts.
Qed.

Lemma table_reports_cascade_witness :
  fst (DeleteMachineCommand.post
         (Sample.submit Sample.root Sample.credential "host01.example.com") Sample.world)
  = Return (Table [("objects", "Deleted objects"); ("count", "#")]
                  [mkRow "Machine" 1; mkRow "SerialConsole" 1; mkRow "NetworkInterface" 2])
  /\ exists (before : list Event) (p total : nat) (counts : dict nat),
      trace (snd (DeleteMachineCommand.post
                    (Sample.submit Sample.root Sample.credential "host01.example.com")
                    Sample.world))
      = trace Sample.world ++ before ++ [EvDelete KMachine p (total, counts)]
      /\ [mkRow "Machine" 1; mkRow "SerialConsole" 1; mkRow "NetworkInterface" 2]
         = map (fun kv => mkRow (PyStr.replace "data." "" (fst kv)) (snd kv)) counts.
Proof.
  split; [reflexivity|].
  destruct (table_reports_cascade (H := Sample.forms)
              (Sample.submit Sample.root Sample.credential "host01.example.com")
              Sample.world) as [Hm _].
  destruct (Hm [("objects", "Deleted objects"); ("count", "#")]
               [mkRow "Machine" 1; mkRow "SerialConsole" 1; mkRow "NetworkInterface" 2]
               eq_refl)
    as (before & p & total & counts & Htr & _ & _ & _ & Hrows & _).
  exists before, p, total, counts. split; [exact Htr | exact Hrows].
Defined.

(** ** Successful runs on the sample data *)

Example delete_physical_machine :
  DeleteMachineCommand.post
    (Sample.submit Sample.root Sample.credential "HOST01.example.com") Sample.world
  = (Return (Table theader [mkRow "Machine" 1; mkRow "SerialConsole" 1;
                            mkRow "NetworkInterface" 2]),
     mkWorld [Sample.vm02; Sample.vm03; Sample.vm04; Sample.vm05]
             [EvGet "HOST01.example.com";
              EvDelete KMachine 1
                       (4, [("data.Machine", 1); ("data.SerialConsole", 1);
                            ("data.NetworkInterface", 2)])]).
Proof. reflexivity. Qed.

Example delete_decommissioned_machine :
  DeleteMachineCommand.post
    (Sample.submit Sample.root Sample.credential "vm05.example.com") Sample.world
  = (Return (Table theader [mkRow "Machine" 1]),
     mkWorld [Sample.host01; Sample.vm02; Sample.vm03; Sample.vm04]
             [EvGet "vm05.example.com"; EvRemove "vm05.example.com";
              EvDelete KMachine 5 (1, [("data.Machine", 1)])]).
Proof. reflexivity. Qed.

Example backend_raises :
  fst (DeleteMachineCommand.post
         (Sample.submit Sample.root Sample.credential "vm04.example.com") Sample.world)
  = Return (ErrorMessage "Something went wrong!").
Proof. reflexivity. Qed.

Example delete_serialconsole :
  DeleteSerialConsoleCommand.post
    (Sample.submit Sample.root Sample.credential "host01.example.com") Sample.world
  = (Return (Table theader [mkRow "SerialConsole" 1]),
     mkWorld [drop_serialconsole Sample.host01; Sample.vm02; Sample.vm03;
              Sample.vm04; Sample.vm05]
             [EvGet "host01.example.com";
              EvDelete KSerialConsole 1 (1, [("data.SerialConsole", 1)])]).
Proof. reflexivity. Qed.

Example malformed_body_is_not_caught :
  fst (DeleteMachineCommand.post
         (mkRequest Sample.root Sample.credential None Malformed) Sample.world)
  = Raise JSONDecodeError.
Proof. reflexivity. Qed.

Example superuser_without_credential :
  fst (DeleteMachineCommand.get (Sample.submit Sample.root None "vm05.example.com")
                                Sample.world)
  = Return AuthRequired
  /\ fst (DeleteMachineCommand.post (Sample.submit Sample.root None "vm05.example.com")
                                    Sample.world)
     = Return (Table theader [mkRow "Machine" 1]).
Proof. split; reflexivity. Qed.

(* ================================================================== *)
(** * Further properties *)

(** ** Tokens of the argument string *)

Lemma isspace_lower_char (c : ascii) :
  PyStr.isspace (PyStr.lower_char c) = PyStr.isspace c.
Proof. destruct c as [[] [] [] [] [] [] [] []]; reflexivity. Qed.

Lemma lower_char_idempotent (c : ascii) :
  PyStr.lower_char (PyStr.lower_char c) = PyStr.lower_char c.
Proof. destruct c as [[] [] [] [] [] [] [] []]; reflexivity. Qed.

Lemma lower_idempotent (s : string) : PyStr.lower (PyStr.lower s) = PyStr.lower s.
Proof.
  induction s as [|c s IH]; [reflexivity|].
  cbn [PyStr.lower]. rewrite lower_char_idempotent, IH. reflexivity.
Qed.

(** One unfolding of [split] on a non-empty string. *)
Lemma split_cons (c : ascii) (s : string) :
  PyStr.split (String c s) =
  if PyStr.isspace c then PyStr.split s
  else match s with
       | EmptyString => [String c EmptyString]
       | String d _ =>
           if PyStr.isspace d then String c EmptyString :: PyStr.split s
           else match PyStr.split s with
                | t :: ts => String c t :: ts
                | [] => [String c EmptyString]
                end
       end.
Proof. reflexivity. Qed.

Lemma split_lower (s : string) :
  PyStr.split (PyStr.lower s) = map PyStr.lower (PyStr.split s).
Proof.
  induction s as [|c s IH]; [reflexivity|].
  change (PyStr.lower (String c s)) with (String (PyStr.lower_char c) (PyStr.lower s)).
  rewrite !split_cons, isspace_lower_char.
  destruct (PyStr.isspace c); [exact IH|].
  destruct s as [|d s]; [reflexivity|].
  change (PyStr.lower (String d s)) with (String (PyStr.lower_char d) (PyStr.lower s)) in *.
  cbv iota. rewrite isspace_lower_char.
  destruct (PyStr.isspace d).
  - rewrite IH. reflexivity.
  - rewrite IH. destruct (PyStr.split (String d s)); reflexivity.
Qed.

Lemma split_leading (p s : string) :
  PyStr.all_space p = true -> PyStr.split (p ++ s) = PyStr.split s.
Proof.
  induction p as [|c p IH]; intros Hp; [reflexivity|].
  cbn [PyStr.all_space] in Hp. apply andb_true_iff in Hp as [Hc Hp].
  change ((String c p ++ s)%string) with (String c (p ++ s)%string).
  rewrite split_cons, Hc. auto.
Qed.

Lemma split_trailing (s p : string) :
  PyStr.all_space p = true -> PyStr.split (s ++ p) = PyStr.split s.
Proof.
  intros Hp. induction s as [|c s IH]; [apply (split_all_space _ Hp)|].
  change ((String c s ++ p)%string) with (String c (s ++ p)%string).
  rewrite !split_cons. destruct (PyStr.isspace c); [exact IH|].
  destruct s as [|d s].
  - change (("" ++ p)%string) with p in *.
    destruct p as [|e p]; [reflexivity|].
    cbn [PyStr.all_space] in Hp. apply andb_true_iff in Hp as [He Hp'].
    rewrite He, IH. reflexivity.
  - change ((String d s ++ p)%string) with (String d (s ++ p)%string) in *.
    rewrite IH. reflexivity.
Qed.

Lemma truthy_lower (s : string) : PyStr.truthy (PyStr.lower s) = PyStr.truthy s.
Proof. destruct s; reflexivity. Qed.

(** ** The dispatcher, continued *)

(** The dispatcher reads its request through the truth value and the tokens
    of [args] only. *)
Lemma dispatch_by_tokens (r1 r2 : Request) (a1 a2 : string) (w : World) :
  GET_args r1 = Some a1 ->
  GET_args r2 = Some a2 ->
  PyStr.truthy a1 = PyStr.truthy a2 ->
  PyStr.split a1 = PyStr.split a2 ->
  DeleteCommand.get r1 w = DeleteCommand.get r2 w.
Proof.
  intros H1 H2 Ht Hs. unfold DeleteCommand.get. rewrite H1, H2, Ht, Hs. reflexivity.
Qed.

(** X1. Whatever the request, the dispatcher hands the world back as it
    received it, and its outcome is one of: the [IndexError] of a blank
    [args]; "Item is missing!"; the unknown-item error for an item outside
    [Delete.as_list]; and, for an item of [Delete.as_list], the
    invalid-argument-count error or the redirect to [/<item>/delete]. *)
Theorem dispatch_outcomes (request : Request) (w : World) :
  snd (DeleteCommand.get request w) = w
  /\ (fst (DeleteCommand.get request w) = Raise IndexError
      \/ fst (DeleteCommand.get request w) = Return (ErrorMessage "Item is missing!")
      \/ (exists item : string,
             ~ In item Delete.as_list
             /\ fst (DeleteCommand.get request w)
                = Return (ErrorMessage ("Unknown item '" ++ item ++ "'!")%string))
      \/ (exists item : string,
             In item Delete.as_list
             /\ (fst (DeleteCommand.get request w)
                 = Return (ErrorMessage
                             ("Invalid number of arguments for '" ++ item ++ "'!")%string)
                 \/ fst (DeleteCommand.get request w)
                    = Return (Redirect ("/" ++ item ++ "/delete")%string)))).
Proof.
  destruct (GET_args request) as [args|] eqn:Ha;
    [|unfold DeleteCommand.get; rewrite Ha; split; [reflexivity | right; left; reflexivity]].
  destruct args as [|c args];
    [unfold DeleteCommand.get; rewrite Ha; split; [reflexivity | right; left; reflexivity]|].
  destruct (PyStr.split (String c args)) as [|first rest] eqn:Hs.
  - unfold DeleteCommand.get. rewrite Ha, Hs.
    split; [reflexivity | left; reflexivity].
  - rewrite (dispatch_tokens request w _ _ _ Ha Hs). cbv zeta.
    destruct (String.eqb_spec (PyStr.lower first) Delete.MACHINE) as [e|n1].
    { destruct (negb (length rest =? 0)); (split; [reflexivity|]);
        right; right; right; exists Delete.MACHINE;
        (split; [simpl; auto|]); [left | right]; reflexivity. }
    destruct (String.eqb_spec (PyStr.lower first) Delete.SERIALCONSOLE) as [e|n2].
    { destruct (negb (length rest =? 0)); (split; [reflexivity|]);
        right; right; right; exists Delete.SERIALCONSOLE;
        (split; [simpl; auto|]); [left | right]; reflexivity. }
    destruct (String.eqb_spec (PyStr.lower first) Delete.REMOTEPOWER) as [e|n3].
    { destruct (negb (length rest =? 0)); (split; [reflexivity|]);
        right; right; right; exists Delete.REMOTEPOWER;
        (split; [simpl; auto|]); [left | right]; reflexivity. }
    split; [reflexivity|]. right; right; left. exists (PyStr.lower first).
    split; [|reflexivity].
    intros [e|[e|[e|[]]]]; congruence.
Qed.

(** X2. The dispatcher redirects exactly when [args] consists of one token
    whose lowercase is an entry of the tab completion, and then to
    [/<entry>/delete]. *)
Theorem dispatch_redirects_exactly (request : Request) (w : World) (location : string) :
  fst (DeleteCommand.get request w) = Return (Redirect location)
  <-> exists args token : string,
      GET_args request = Some args
      /\ PyStr.split args = [token]
      /\ In (PyStr.lower token) DeleteCommand.get_tabcompletion
      /\ location = ("/" ++ PyStr.lower token ++ "/delete")%string.
Proof.
  split.
  - intros H.
    destruct (GET_args request) as [args|] eqn:Ha;
      [|unfold DeleteCommand.get in H; rewrite Ha in H; discriminate].
    destruct (PyStr.split args) as [|first rest] eqn:Hs.
    { unfold DeleteCommand.get in H. rewrite Ha, Hs in H.
      destruct (PyStr.truthy args); discriminate. }
    rewrite (dispatch_tokens request w _ _ _ Ha Hs) in H. cbv zeta in H.
    exists args, first.
    destruct (String.eqb_spec (PyStr.lower first) Delete.MACHINE) as [e|_].
    { destruct rest; [|discriminate]. injection H as <-. rewrite e.
      repeat split; simpl; auto. }
    destruct (String.eqb_spec (PyStr.lower first) Delete.SERIALCONSOLE) as [e|_].
    { destruct rest; [|discriminate]. injection H as <-. rewrite e.
      repeat split; simpl; auto. }
    destruct (String.eqb_spec (PyStr.lower first) Delete.REMOTEPOWER) as [e|_].
    { destruct rest; [|discriminate]. injection H as <-. rewrite e.
      repeat split; simpl; auto. }
    discriminate.
  - intros (args & token & Ha & Hs & Hin & ->).
    rewrite (dispatch_tokens request w _ _ _ Ha Hs). cbv zeta.
    destruct Hin as [e|[e|[e|[]]]]; rewrite <- e; reflexivity.
Qed.

Lemma dispatch_redirects_exactly_witness :
  GET_args (Sample.dispatch AnonymousUser (Some "RemotePower")) = Some "RemotePower"
  /\ PyStr.split "RemotePower" = ["RemotePower"]
  /\ In (PyStr.lower "RemotePower") DeleteCommand.get_tabcompletion
  /\ fst (DeleteCommand.get (Sample.dispatch AnonymousUser (Some "RemotePower")) Sample.world)
     = Return (Redirect "/remotepower/delete").
Proof.
  split; [reflexivity|]. split; [reflexivity|].
  split; [right; right; left; reflexivity|].
  apply (proj2 (dispatch_redirects_exactly
                  (Sample.dispatch AnonymousUser (Some "RemotePower")) Sample.world
                  "/remotepower/delete")).
  exists "RemotePower", "RemotePower".
  split; [reflexivity|]. split; [reflexivity|].
  split; [right; right; left; reflexivity | reflexivity].
Defined.

(** X3. The dispatcher is insensitive to the case of [args]: it answers
    [args.lower()] as it answers [args]. *)
Theorem dispatch_case_insensitive (request : Request) (w : World) (args : string) :
  GET_args request = Some args ->
  DeleteCommand.get (with_args request (Some (PyStr.lower args))) w
  = DeleteCommand.get request w.
Proof.
  intros Ha. unfold DeleteCommand.get, with_args. cbn [GET_args]. rewrite Ha.
  rewrite truthy_lower, split_lower.
  destruct (PyStr.split args) as [|first rest]; [reflexivity|].
  cbn [map]. rewrite lower_idempotent, length_map. reflexivity.
Qed.

Lemma dispatch_case_insensitive_witness :
  GET_args (Sample.dispatch Sample.alice (Some "Machine X")) = Some "Machine X"
  /\ DeleteCommand.get
       (with_args (Sample.dispatch Sample.alice (Some "Machine X"))
                  (Some (PyStr.lower "Machine X"))) Sample.world
     = DeleteCommand.get (Sample.dispatch Sample.alice (Some "Machine X")) Sample.world.
Proof.
  split; [reflexivity|].
  apply (dispatch_case_insensitive (Sample.dispatch Sample.alice (Some "Machine X"))
                                   Sample.world "Machine X").
  reflexivity.
Defined.

Lemma truthy_padded (p1 args p2 : string) :
  args <> "" -> PyStr.truthy (p1 ++ args ++ p2) = true.
Proof.
  intros Hne. destruct p1; [|reflexivity].
  destruct args; [congruence | reflexivity].
Qed.

(** X4. Whitespace around a non-empty [args] does not change the answer of
    the dispatcher. *)
Theorem dispatch_ignores_padding (request : Request) (w : World)
        (before args after : string) :
  GET_args request = Some args ->
  args <> "" ->
  PyStr.all_space before = true ->
  PyStr.all_space after = true ->
  DeleteCommand.get (with_args request (Some (before ++ args ++ after)%string)) w
  = DeleteCommand.get request w.
Proof.
  intros Ha Hne Hb Hf.
  apply (dispatch_by_tokens _ _ (before ++ args ++ after)%string args w);
    [reflexivity | exact Ha | |].
  - rewrite (truthy_padded before args after Hne).
    symmetry. apply all_space_not_missing. exact Hne.
  - rewrite (split_leading before _ Hb). apply split_trailing. exact Hf.
Qed.

Lemma dispatch_ignores_padding_witness :
  GET_args (Sample.dispatch Sample.root (Some "machine")) = Some "machine"
  /\ "machine" <> ""
  /\ PyStr.all_space "  " = true
  /\ PyStr.all_space " " = true
  /\ DeleteCommand.get
       (with_args (Sample.dispatch Sample.root (Some "machine")) (Some "  machine "))
       Sample.world
     = DeleteCommand.get (Sample.dispatch Sample.root (Some "machine")) Sample.world.
Proof.
  split; [reflexivity|]. split; [discriminate|].
  split; [reflexivity|]. split; [reflexivity|].
  apply (dispatch_ignores_padding (Sample.dispatch Sample.root (Some "machine"))
                                  Sample.world "  " "machine" " ");
    [reflexivity | discriminate | reflexivity | reflexivity].
Defined.

(** ** The URL table *)

(** X5. Every pattern the four classes register can be reversed by its
    name, and the reversed path is routed back to the view of that
    pattern. *)
Theorem reverse_then_resolve (u : UrlPattern) (w : World) :
  In u DeleteCommand.urlpatterns ->
  exists path : string,
    reverse DeleteCommand.urlpatterns ("api:" ++ name u) w = (Return path, w)
    /\ resolve DeleteCommand.urlpatterns path = Some (view u).
Proof.
  intros [<-|[<-|[<-|[<-|[]]]]]; eexists; split; reflexivity.
Qed.

Lemma reverse_then_resolve_witness :
  In (url "^serialconsole/delete" DeleteSerialConsoleCommandView "serialconsole_delete")
     DeleteCommand.urlpatterns
  /\ exists path : string,
      reverse DeleteCommand.urlpatterns "api:serialconsole_delete" Sample.world
      = (Return path, Sample.world)
      /\ resolve DeleteCommand.urlpatterns path = Some DeleteSerialConsoleCommandView.
Proof.
  split; [right; right; left; reflexivity|].
  apply (reverse_then_resolve
           (url "^serialconsole/delete" DeleteSerialConsoleCommandView
                "serialconsole_delete") Sample.world).
  right; right; left; reflexivity.
Defined.

(** X6. The patterns of the three handlers are open at the end: any path
    that starts with [/machine/delete], [/serialconsole/delete] or
    [/remotepower/delete] is routed to that handler.  The pattern of the
    dispatcher is closed by [$]: [/delete] is routed to the dispatcher when
    nothing follows or one final newline does, and nowhere otherwise. *)
Theorem routes_by_prefix (suffix : string) :
  resolve DeleteCommand.urlpatterns (DeleteMachineCommand.URL_POST ++ suffix)
  = Some DeleteMachineCommandView
  /\ resolve DeleteCommand.urlpatterns (DeleteSerialConsoleCommand.URL_POST ++ suffix)
     = Some DeleteSerialConsoleCommandView
  /\ resolve DeleteCommand.urlpatterns (DeleteRemotePowerCommand.URL_POST ++ suffix)
     = Some DeleteRemotePowerCommandView
  /\ resolve DeleteCommand.urlpatterns (DeleteCommand.URL ++ suffix)
     = if String.eqb suffix "" || String.eqb suffix newline
       then Some DeleteCommandView else None.
Proof.
  split; [destruct suffix; reflexivity|].
  split; [destruct suffix; reflexivity|].
  split; [destruct suffix; reflexivity|].
  destruct suffix as [|c rest]; [reflexivity|].
  destruct rest as [|d rest]; destruct c as [[] [] [] [] [] [] [] []]; reflexivity.
Qed.

(** ** Execute: the branches of a request *)

(** A form that validates carries a non-empty [fqdn]. *)
Lemma valid_has_fqdn `{ApiForms} (data : dict string) :
  is_valid (mkForm [fqdn_field] data) = true ->
  exists f : string,
    dict_get "fqdn" (cleaned_data (mkForm [fqdn_field] data)) = Some f
    /\ dict_get "fqdn" data = Some f
    /\ f <> "".
Proof.
  unfold is_valid, errors, cleaned_data. cbn [declared posted flat_map].
  unfold field_errors. cbn [key required validators fqdn_field].
  destruct (dict_get "fqdn" data) as [v|]; [|discriminate].
  destruct v as [|c v]; [discriminate|]. cbn [PyStr.truthy].
  destruct (failures (String c v) fqdn_validators); [|discriminate].
  intros _. exists (String c v).
  split; [reflexivity|]. split; [reflexivity | discriminate].
Qed.

Lemma request_cases `{ApiForms} (request : Request) :
  is_superuser (user request) = false
  \/ (is_superuser (user request) = true /\ posted_form request = None)
  \/ (is_superuser (user request) = true
      /\ exists data : dict string,
          posted_form request = Some data /\ is_valid (mkForm [fqdn_field] data) = false)
  \/ (is_superuser (user request) = true
      /\ exists f : string, validated_fqdn request = Some f).
Proof.
  destruct (is_superuser (user request)); [|left; reflexivity].
  right. unfold validated_fqdn.
  destruct (posted_form request) as [data|]; [|left; split; reflexivity].
  right. cbv zeta.
  destruct (is_valid (mkForm [fqdn_field] data)) eqn:Hv.
  - right. split; [reflexivity|].
    destruct (valid_has_fqdn data Hv) as (f & Hc & _). exists f. exact Hc.
  - left. split; [reflexivity|]. exists data. split; [reflexivity | exact Hv].
Qed.

Lemma execute_forbidden `{ApiForms} (request : Request) (w : World) :
  is_superuser (user request) = false ->
  DeleteMachineCommand.post request w = (Return (ErrorMessage only_superusers), w)
  /\ DeleteSerialConsoleCommand.post request w = (Return (ErrorMessage only_superusers), w)
  /\ DeleteRemotePowerCommand.post request w = (Return (ErrorMessage only_superusers), w).
Proof.
  intros Hs.
  unfold DeleteMachineCommand.post, DeleteSerialConsoleCommand.post,
         DeleteRemotePowerCommand.post.
  rewrite Hs. repeat split.
Qed.

Lemma execute_unparsed `{ApiForms} (request : Request) (w : World) :
  is_superuser (user request) = true ->
  posted_form request = None ->
  DeleteMachineCommand.post request w = (Raise (payload_error request), w)
  /\ DeleteSerialConsoleCommand.post request w = (Raise (payload_error request), w)
  /\ DeleteRemotePowerCommand.post request w = (Raise (payload_error request), w).
Proof.
  intros Hs Hp.
  unfold DeleteMachineCommand.post, DeleteSerialConsoleCommand.post,
         DeleteRemotePowerCommand.post.
  rewrite Hs. cbn [negb].
  rewrite !(form_payload_missing request _ w Hp). repeat split.
Qed.

Lemma execute_invalid `{ApiForms} (request : Request) (w : World) (data : dict string) :
  is_superuser (user request) = true ->
  posted_form request = Some data ->
  is_valid (mkForm [fqdn_field] data) = false ->
  DeleteMachineCommand.post request w
  = (Return (ErrorMessage
               (newline ++ format_cli_form_errors (mkForm [fqdn_field] data))%string), w)
  /\ DeleteSerialConsoleCommand.post request w
     = (Return (ErrorMessage
                  (newline ++ format_cli_form_errors (mkForm [fqdn_field] data))%string), w)
  /\ DeleteRemotePowerCommand.post request w
     = (Return (ErrorMessage
                  (newline ++ format_cli_form_errors (mkForm [fqdn_field] data))%string), w).
Proof.
  intros Hs Hp Hbad.
  unfold DeleteMachineCommand.post, DeleteSerialConsoleCommand.post,
         DeleteRemotePowerCommand.post.
  rewrite Hs. cbn [negb].
  rewrite !(form_payload_posted request data _ w Hp).
  unfold DeleteMachineAPIForm, DeleteSerialConsoleAPIForm, DeleteRemotePowerAPIForm.
  rewrite Hbad. repeat split.
Qed.

(** What machine delete does with the machine its lookup found. *)
Lemma machine_action_run (m : Machine) (w : World) :
  try_except (step <- DeleteMachineCommand.action m ;; finish step) safety_net w
  = if virtual m then
      match hypervisor m with
      | None =>
          (Return (ErrorMessage "Something went wrong!"),
           mkWorld (db w) (trace w ++ [EvLog AttributeError]))
      | Some host =>
          match virtualization_api host with
          | None => (Return (ErrorMessage "No virtualization API found!"), w)
          | Some api =>
              match remove api (fqdn m) with
              | RemoveTrue =>
                  (Return (Table theader (rows_of (collect_machine m))),
                   mkWorld (filter (fun x => negb (pk x =? pk m)) (db w))
                           (trace w ++ [EvRemove (fqdn m);
                                        EvDelete KMachine (pk m)
                                                 (result_of (collect_machine m))]))
              | RemoveFalse =>
                  (Return (ErrorMessage "Something went wrong!"),
                   mkWorld (db w)
                           (trace w ++ [EvRemove (fqdn m); EvLog UnboundLocalError]))
              | RemoveRaises =>
                  (Return (ErrorMessage "Something went wrong!"),
                   mkWorld (db w) (trace w ++ [EvRemove (fqdn m); EvLog BackendError]))
              end
          end
      end
    else
      (Return (Table theader (rows_of (collect_machine m))),
       mkWorld (filter (fun x => negb (pk x =? pk m)) (db w))
               (trace w ++ [EvDelete KMachine (pk m) (result_of (collect_machine m))])).
Proof.
  unfold DeleteMachineCommand.action, is_virtual_machine, get_hypervisor,
         api_remove, Machine_delete.
  destruct (virtual m); [|reflexivity].
  destruct (hypervisor m) as [host|]; [|reflexivity].
  run. destruct (virtualization_api host) as [api|]; [|reflexivity].
  run. destruct (remove api (fqdn m)); simpl; rewrite <- app_assoc; reflexivity.
Qed.

Lemma serialconsole_action_run (m : Machine) (w : World) :
  try_except (step <- DeleteSerialConsoleCommand.action m ;; finish step) safety_net w
  = match serialconsole m with
    | None => (Return (ErrorMessage "Machine has no serial console!"), w)
    | Some _ =>
        (Return (Table theader (rows_of [("data.SerialConsole", 1)])),
         mkWorld (update_pk (pk m) drop_serialconsole (db w))
                 (trace w ++ [EvDelete KSerialConsole (pk m)
                                       (result_of [("data.SerialConsole", 1)])]))
    end.
Proof.
  unfold DeleteSerialConsoleCommand.action, has_serialconsole, serialconsole_delete.
  destruct (serialconsole m); reflexivity.
Qed.

Lemma remotepower_action_run (m : Machine) (w : World) :
  try_except (step <- DeleteRemotePowerCommand.action m ;; finish step) safety_net w
  = match remotepower m with
    | None => (Return (ErrorMessage "Machine has no remote power!"), w)
    | Some _ =>
        (Return (Table theader (rows_of [("data.RemotePower", 1)])),
         mkWorld (update_pk (pk m) drop_remotepower (db w))
                 (trace w ++ [EvDelete KRemotePower (pk m)
                                       (result_of [("data.RemotePower", 1)])]))
    end.
Proof.
  unfold DeleteRemotePowerCommand.action, has_remotepower, remotepower_delete.
  destruct (remotepower m); reflexivity.
Qed.

(** An execute operation of a superuser with a validated fqdn, as the
    outcome of the lookup followed by the action on the machine found. *)
Lemma machine_validated `{ApiForms} (request : Request) (w : World) (f : string) :
  is_superuser (user request) = true ->
  validated_fqdn request = Some f ->
  DeleteMachineCommand.post request w
  = match matching f (db w) with
    | [] => (Return (ErrorMessage "Something went wrong!"),
             mkWorld (db w) (trace w ++ [EvGet f; EvLog DoesNotExist]))
    | [m] => try_except (step <- DeleteMachineCommand.action m ;; finish step) safety_net
                        (mkWorld (db w) (trace w ++ [EvGet f]))
    | _ :: _ :: _ => (Return (ErrorMessage "Something went wrong!"),
                      mkWorld (db w) (trace w ++ [EvGet f; EvLog MultipleObjectsReturned]))
    end.
Proof. intros Hs Hv. enter_try Hs Hv. reflexivity. Qed.

Lemma serialconsole_validated `{ApiForms} (request : Request) (w : World) (f : string) :
  is_superuser (user request) = true ->
  validated_fqdn request = Some f ->
  DeleteSerialConsoleCommand.post request w
  = match matching f (db w) with
    | [] => (Return (ErrorMessage "Something went wrong!"),
             mkWorld (db w) (trace w ++ [EvGet f; EvLog DoesNotExist]))
    | [m] => try_except (step <- DeleteSerialConsoleCommand.action m ;; finish step)
                        safety_net (mkWorld (db w) (trace w ++ [EvGet f]))
    | _ :: _ :: _ => (Return (ErrorMessage "Something went wrong!"),
                      mkWorld (db w) (trace w ++ [EvGet f; EvLog MultipleObjectsReturned]))
    end.
Proof. intros Hs Hv. enter_try Hs Hv. reflexivity. Qed.

Lemma remotepower_validated `{ApiForms} (request : Request) (w : World) (f : string) :
  is_superuser (user request) = true ->
  validated_fqdn request = Some f ->
  DeleteRemotePowerCommand.post request w
  = match matching f (db w) with
    | [] => (Return (ErrorMessage "Something went wrong!"),
             mkWorld (db w) (trace w ++ [EvGet f; EvLog DoesNotExist]))
    | [m] => try_except (step <- DeleteRemotePowerCommand.action m ;; finish step)
                        safety_net (mkWorld (db w) (trace w ++ [EvGet f]))
    | _ :: _ :: _ => (Return (ErrorMessage "Something went wrong!"),
                      mkWorld (db w) (trace w ++ [EvGet f; EvLog MultipleObjectsReturned]))
    end.
Proof. intros Hs Hv. enter_try Hs Hv. reflexivity. Qed.

(** Splits a statement about the execute operations on [request] in [w]
    into the branches of the request: refused, without a form, with an
    invalid form, and validated (left as the cases of the lookup and of the
    action). *)
Ltac execute_cases request w :=
  let Hs := fresh "Hs" in
  let Hp := fresh "Hp" in
  let Hbad := fresh "Hbad" in
  let Hv := fresh "Hv" in
  let Hm := fresh "Hm" in
  let data := fresh "data" in
  let f := fresh "f" in
  let m := fresh "m" in
  let m' := fresh "m'" in
  let l := fresh "l" in
  let E1 := fresh "E" in
  let E2 := fresh "E" in
  let E3 := fresh "E" in
  destruct (request_cases request)
    as [Hs|[[Hs Hp]|[(Hs & data & Hp & Hbad)|(Hs & f & Hv)]]];
  [ destruct (execute_forbidden request w Hs) as (E1 & E2 & E3);
    rewrite ?E1, ?E2, ?E3
  | destruct (execute_unparsed request w Hs Hp) as (E1 & E2 & E3);
    rewrite ?E1, ?E2, ?E3
  | destruct (execute_invalid request w data Hs Hp Hbad) as (E1 & E2 & E3);
    rewrite ?E1, ?E2, ?E3
  | rewrite ?(machine_validated request w f Hs Hv),
            ?(serialconsole_validated request w f Hs Hv),
            ?(remotepower_validated request w f Hs Hv);
    destruct (matching f (db w)) as [|m [|m' l]] eqn:Hm;
    rewrite ?machine_action_run, ?serialconsole_action_run, ?remotepower_action_run ].

(** Breaks the remaining [match]es and conditionals of the goal. *)
Ltac break_cases :=
  repeat match goal with
         | |- context [match ?x with _ => _ end] => destruct x eqn:?
         end.

(** ** Execute: failure, exceptions and effects *)

(** X7. An execute operation that does not answer with a table leaves the
    machine table as it was, whatever the request: refused, unparsable,
    invalid, failed lookup, failed precondition, failed decommission. *)
Theorem failure_leaves_table `{ApiForms} (request : Request) (w : World) :
  Forall (fun operation : Request -> M Response =>
            (exists (h : list (string * string)) (rows : list Row),
                fst (operation request w) = Return (Table h rows))
            \/ db (snd (operation request w)) = db w)
         execute_operations.
Proof.
  unfold execute_operations.
  repeat (apply Forall_cons || apply Forall_nil);
    execute_cases request w; break_cases; cbn [fst snd db];
    first [right; reflexivity | left; eexists; eexists; reflexivity].
Qed.


(** ** Machine delete: the successful and the failing runs *)

Lemma in_after_delete (m x : Machine) (d : list Machine) :
  In x (filter (fun y => negb (pk y =? pk m)) d) <-> In x d /\ pk x <> pk m.
Proof.
  rewrite filter_In, negb_true_iff, Nat.eqb_neq. reflexivity.
Qed.

Lemma matching_in (f : string) (m : Machine) (d : list Machine) :
  matching f d = [m] -> In m d /\ iexact (fqdn m) f = true.
Proof.
  intros Hm.
  apply (proj1 (filter_In (fun x => iexact (fqdn x) f) m d)).
  fold (matching f d). rewrite Hm. left. reflexivity.
Qed.

(** X9. Machine delete of a machine that is not virtual, by a superuser with
    the machine's fqdn validated: the answer is the table of the cascade,
    the calls are the lookup and the delete (no backend is involved), and
    afterwards the table holds exactly the machines with another primary
    key. *)
Theorem physical_machine_is_deleted `{ApiForms} (request : Request) (w : World)
        (f : string) (m : Machine) :
  is_superuser (user request) = true ->
  validated_fqdn request = Some f ->
  matching f (db w) = [m] ->
  is_virtual_machine m = false ->
  fst (DeleteMachineCommand.post request w)
  = Return (Table theader (rows_of (collect_machine m)))
  /\ trace (snd (DeleteMachineCommand.post request w))
     = trace w ++ [EvGet f; EvDelete KMachine (pk m) (result_of (collect_machine m))]
  /\ (forall x : Machine,
         In x (db (snd (DeleteMachineCommand.post request w)))
         <-> In x (db w) /\ pk x <> pk m)
  /\ ~ In m (db (snd (DeleteMachineCommand.post request w))).
Proof.
  intros Hs Hv Hm Hvirt. unfold is_virtual_machine in Hvirt.
  rewrite (machine_validated request w f Hs Hv), Hm, machine_action_run, Hvirt.
  cbn [fst snd db trace]. split; [reflexivity|].
  split; [rewrite <- app_assoc; reflexivity|].
  split; [intros x; apply in_after_delete|].
  intros Hin. apply in_after_delete in Hin. tauto.
Qed.

Lemma physical_machine_is_deleted_witness :
  is_superuser (user (Sample.submit Sample.root Sample.credential "Host01.Example.com")) = true
  /\ validated_fqdn (Sample.submit Sample.root Sample.credential "Host01.Example.com")
     = Some "Host01.Example.com"
  /\ matching "Host01.Example.com" (db Sample.world) = [Sample.host01]
  /\ is_virtual_machine Sample.host01 = false
  /\ fst (DeleteMachineCommand.post
            (Sample.submit Sample.root Sample.credential "Host01.Example.com") Sample.world)
     = Return (Table theader (rows_of (collect_machine Sample.host01)))
  /\ ~ In Sample.host01
          (db (snd (DeleteMachineCommand.post
                      (Sample.submit Sample.root Sample.credential "Host01.Example.com")
                      Sample.world))).
Proof.
  do 4 (split; [reflexivity|]).
  destruct (physical_machine_is_deleted (H := Sample.forms)
              (Sample.submit Sample.root Sample.credential "Host01.Example.com")
              Sample.world "Host01.Example.com" Sample.host01
              eq_refl eq_refl eq_refl eq_refl) as (H1 & _ & _ & H4).
  split; [exact H1 | exact H4].
Defined.

(** X10. Machine delete of a virtual machine whose backend decommissions
    it: the calls are, in this order, the lookup, the decommission and the
    delete; the answer is the table of the cascade and the machine is gone
    from the table, the others staying. *)
Theorem decommissioned_machine_is_deleted `{ApiForms} (request : Request) (w : World)
        (f : string) (m : Machine) (host : Hypervisor) (api : VirtualizationAPI) :
  is_superuser (user request) = true ->
  validated_fqdn request = Some f ->
  matching f (db w) = [m] ->
  is_virtual_machine m = true ->
  get_hypervisor m = Some host ->
  virtualization_api host = Some api ->
  remove api (fqdn m) = RemoveTrue ->
  fst (DeleteMachineCommand.post request w)
  = Return (Table theader (rows_of (collect_machine m)))
  /\ trace (snd (DeleteMachineCommand.post request w))
     = trace w ++ [EvGet f; EvRemove (fqdn m);
                   EvDelete KMachine (pk m) (result_of (collect_machine m))]
  /\ (forall x : Machine,
         In x (db (snd (DeleteMachineCommand.post request w)))
         <-> In x (db w) /\ pk x <> pk m).
Proof.
  intros Hs Hv Hm Hvirt Hh Ha Hr. unfold is_virtual_machine in Hvirt.
  unfold get_hypervisor in Hh.
  rewrite (machine_validated request w f Hs Hv), Hm, machine_action_run, Hvirt, Hh, Ha, Hr.
  cbn [fst snd db trace]. split; [reflexivity|].
  split; [rewrite <- app_assoc; reflexivity|].
  intros x; apply in_after_delete.
Qed.

Lemma decommissioned_machine_is_deleted_witness :
  is_superuser (user (Sample.submit Sample.root Sample.credential "vm05.example.com")) = true
  /\ validated_fqdn (Sample.submit Sample.root Sample.credential "vm05.example.com")
     = Some "vm05.example.com"
  /\ matching "vm05.example.com" (db Sample.world) = [Sample.vm05]
  /\ is_virtual_machine Sample.vm05 = true
  /\ get_hypervisor Sample.vm05 = Some (Sample.backend RemoveTrue)
  /\ virtualization_api (Sample.backend RemoveTrue) = Some (mkAPI (fun _ => RemoveTrue))
  /\ remove (mkAPI (fun _ => RemoveTrue)) (fqdn Sample.vm05) = RemoveTrue
  /\ trace (snd (DeleteMachineCommand.post
                   (Sample.submit Sample.root Sample.credential "vm05.example.com")
                   Sample.world))
     = trace Sample.world
       ++ [EvGet "vm05.example.com"; EvRemove (fqdn Sample.vm05);
           EvDelete KMachine (pk Sample.vm05) (result_of (collect_machine Sample.vm05))].
Proof.
  do 7 (split; [reflexivity|]).
  destruct (decommissioned_machine_is_deleted (H := Sample.forms)
              (Sample.submit Sample.root Sample.credential "vm05.example.com")
              Sample.world "vm05.example.com" Sample.vm05
              (Sample.backend RemoveTrue) (mkAPI (fun _ => RemoveTrue))
              eq_refl eq_refl eq_refl eq_refl eq_refl eq_refl eq_refl) as (_ & H2 & _).
  exact H2.
Defined.

(** X11. Machine delete of a virtual machine without a hypervisor: reading
    [virtualization_api] of [None] raises inside the [try]; the answer is
    "Something went wrong!", the backend is never called, nothing is
    deleted. *)
Theorem orphan_machine_is_internal_error `{ApiForms} (request : Request) (w : World)
        (f : string) (m : Machine) :
  is_superuser (user request) = true ->
  validated_fqdn request = Some f ->
  matching f (db w) = [m] ->
  is_virtual_machine m = true ->
  get_hypervisor m = None ->
  DeleteMachineCommand.post request w
  = (Return (ErrorMessage "Something went wrong!"),
     mkWorld (db w) (trace w ++ [EvGet f; EvLog AttributeError])).
Proof.
  intros Hs Hv Hm Hvirt Hh. unfold is_virtual_machine in Hvirt.
  unfold get_hypervisor in Hh.
  rewrite (machine_validated request w f Hs Hv), Hm, machine_action_run, Hvirt, Hh.
  cbn [db trace]. rewrite <- app_assoc. reflexivity.
Qed.

Lemma orphan_machine_is_internal_error_witness :
  is_superuser (user (Sample.submit Sample.root Sample.credential "orphan.example.com")) = true
  /\ validated_fqdn (Sample.submit Sample.root Sample.credential "orphan.example.com")
     = Some "orphan.example.com"
  /\ matching "orphan.example.com" (db Fixture.world) = [Fixture.orphan]
  /\ is_virtual_machine Fixture.orphan = true
  /\ get_hypervisor Fixture.orphan = None
  /\ DeleteMachineCommand.post
       (Sample.submit Sample.root Sample.credential "orphan.example.com") Fixture.world
     = (Return (ErrorMessage "Something went wrong!"),
        mkWorld (db Fixture.world)
                (trace Fixture.world ++ [EvGet "orphan.example.com"; EvLog AttributeError])).
Proof.
  do 5 (split; [reflexivity|]).
  apply (orphan_machine_is_internal_error (H := Sample.forms)
           (Sample.submit Sample.root Sample.credential "orphan.example.com")
           Fixture.world "orphan.example.com" Fixture.orphan);
    reflexivity.
Defined.

(** X12. When several stored machines match the posted fqdn (names that
    differ in case only), the lookup raises and each execute operation
    answers "Something went wrong!" without touching any of them. *)
Theorem ambiguous_lookup_is_internal_error `{ApiForms} (request : Request) (w : World)
        (f : string) (m1 m2 : Machine) (others : list Machine) :
  is_superuser (user request) = true ->
  validated_fqdn request = Some f ->
  matching f (db w) = m1 :: m2 :: others ->
  Forall (fun operation : Request -> M Response =>
            operation request w
            = (Return (ErrorMessage "Something went wrong!"),
               mkWorld (db w) (trace w ++ [EvGet f; EvLog MultipleObjectsReturned])))
         execute_operations.
Proof.
  intros Hs Hv Hm. unfold execute_operations.
  repeat (apply Forall_cons || apply Forall_nil).
  - rewrite (machine_validated request w f Hs Hv), Hm. reflexivity.
  - rewrite (serialconsole_validated request w f Hs Hv), Hm. reflexivity.
  - rewrite (remotepower_validated request w f Hs Hv), Hm. reflexivity.
Qed.

Lemma ambiguous_lookup_is_internal_error_witness :
  is_superuser (user (Sample.submit Sample.root Sample.credential "twin.example.com")) = true
  /\ validated_fqdn (Sample.submit Sample.root Sample.credential "twin.example.com")
     = Some "twin.example.com"
  /\ matching "twin.example.com" (db Fixture.world) = [Fixture.twin_a; Fixture.twin_b]
  /\ Forall (fun operation : Request -> M Response =>
               operation (Sample.submit Sample.root Sample.credential "twin.example.com")
                         Fixture.world
               = (Return (ErrorMessage "Something went wrong!"),
                  mkWorld (db Fixture.world)
                          (trace Fixture.world
                             ++ [EvGet "twin.example.com"; EvLog MultipleObjectsReturned])))
            execute_operations.
Proof.
  do 3 (split; [reflexivity|]).
  apply (ambiguous_lookup_is_internal_error (H := Sample.forms)
           (Sample.submit Sample.root Sample.credential "twin.example.com")
           Fixture.world "twin.example.com" Fixture.twin_a Fixture.twin_b []);
    reflexivity.
Defined.

Lemma matching_iexact (f1 f2 : string) (d : list Machine) :
  PyStr.lower f1 = PyStr.lower f2 -> matching f1 d = matching f2 d.
Proof.
  intros E. unfold matching. apply filter_ext. intros m. unfold iexact.
  rewrite E. reflexivity.
Qed.

(** X13. The target is named up to case: two requests of superusers whose
    validated fqdns agree once lowercased get the same answer from each
    execute operation and leave the same machine table. *)
Theorem fqdn_case_is_irrelevant `{ApiForms} (r1 r2 : Request) (w : World)
        (f1 f2 : string) :
  is_superuser (user r1) = true ->
  is_superuser (user r2) = true ->
  validated_fqdn r1 = Some f1 ->
  validated_fqdn r2 = Some f2 ->
  PyStr.lower f1 = PyStr.lower f2 ->
  Forall (fun operation : Request -> M Response =>
            fst (operation r1 w) = fst (operation r2 w)
            /\ db (snd (operation r1 w)) = db (snd (operation r2 w)))
         execute_operations.
Proof.
  intros Hs1 Hs2 Hv1 Hv2 E. unfold execute_operations.
  repeat (apply Forall_cons || apply Forall_nil).
  - rewrite (machine_validated r1 w f1 Hs1 Hv1), (machine_validated r2 w f2 Hs2 Hv2),
      (matching_iexact f1 f2 (db w) E).
    destruct (matching f2 (db w)) as [|m [|m' l]]; [split; reflexivity| |split; reflexivity].
    rewrite !machine_action_run. break_cases; split; reflexivity.
  - rewrite (serialconsole_validated r1 w f1 Hs1 Hv1),
      (serialconsole_validated r2 w f2 Hs2 Hv2), (matching_iexact f1 f2 (db w) E).
    destruct (matching f2 (db w)) as [|m [|m' l]]; [split; reflexivity| |split; reflexivity].
    rewrite !serialconsole_action_run. break_cases; split; reflexivity.
  - rewrite (remotepower_validated r1 w f1 Hs1 Hv1),
      (remotepower_validated r2 w f2 Hs2 Hv2), (matching_iexact f1 f2 (db w) E).
    destruct (matching f2 (db w)) as [|m [|m' l]]; [split; reflexivity| |split; reflexivity].
    rewrite !remotepower_action_run. break_cases; split; reflexivity.
Qed.

Lemma fqdn_case_is_irrelevant_witness :
  is_superuser (user (Sample.submit Sample.root Sample.credential "HOST01.EXAMPLE.COM")) = true
  /\ is_superuser (user (Sample.submit Sample.root None "host01.example.com")) = true
  /\ validated_fqdn (Sample.submit Sample.root Sample.credential "HOST01.EXAMPLE.COM")
     = Some "HOST01.EXAMPLE.COM"
  /\ validated_fqdn (Sample.submit Sample.root None "host01.example.com")
     = Some "host01.example.com"
  /\ PyStr.lower "HOST01.EXAMPLE.COM" = PyStr.lower "host01.example.com"
  /\ Forall (fun operation : Request -> M Response =>
               fst (operation
                      (Sample.submit Sample.root Sample.credential "HOST01.EXAMPLE.COM")
                      Sample.world)
               = fst (operation (Sample.submit Sample.root None "host01.example.com")
                                Sample.world)
               /\ db (snd (operation
                             (Sample.submit Sample.root Sample.credential
                                            "HOST01.EXAMPLE.COM")
                             Sample.world))
                  = db (snd (operation (Sample.submit Sample.root None "host01.example.com")
                                       Sample.world)))
            execute_operations.
Proof.
  do 5 (split; [reflexivity|]).
  apply (fqdn_case_is_irrelevant (H := Sample.forms)
           (Sample.submit Sample.root Sample.credential "HOST01.EXAMPLE.COM")
           (Sample.submit Sample.root None "host01.example.com")
           Sample.world "HOST01.EXAMPLE.COM" "host01.example.com");
    reflexivity.
Defined.

(** ** Sub-resources: the successful runs and what they keep *)

Lemma map_update_pk {A : Type} (proj : Machine -> A) (g : Machine -> Machine)
      (p : nat) (d : list Machine) :
  (forall x, proj (g x) = proj x) -> map proj (update_pk p g d) = map proj d.
Proof.
  intros Hg. unfold update_pk. rewrite map_map. apply map_ext.
  intros x. destruct (pk x =? p); [apply Hg | reflexivity].
Qed.

Lemma matching_update_pk (f : string) (g : Machine -> Machine) (p : nat)
      (d : list Machine) :
  (forall x, fqdn (g x) = fqdn x) ->
  matching f (update_pk p g d) = update_pk p g (matching f d).
Proof.
  intros Hg. unfold matching, update_pk.
  induction d as [|a d IH]; [reflexivity|]. cbn [map filter].
  assert (E : iexact (fqdn (if pk a =? p then g a else a)) f = iexact (fqdn a) f).
  { destruct (pk a =? p); [rewrite Hg|]; reflexivity. }
  rewrite E. destruct (iexact (fqdn a) f); cbn [map]; rewrite IH; reflexivity.
Qed.

Lemma matching_after_drop (f : string) (g : Machine -> Machine) (m : Machine)
      (d : list Machine) :
  (forall x, fqdn (g x) = fqdn x) ->
  matching f d = [m] ->
  matching f (update_pk (pk m) g d) = [g m].
Proof.
  intros Hg Hm. rewrite (matching_update_pk f g (pk m) d Hg), Hm.
  unfold update_pk. cbn [map]. rewrite Nat.eqb_refl. reflexivity.
Qed.

Lemma subresource_delete_run `{ApiForms} (request : Request) (w : World)
      (f : string) (m : Machine) :
  is_superuser (user request) = true ->
  validated_fqdn request = Some f ->
  matching f (db w) = [m] ->
  (has_serialconsole m = true ->
   DeleteSerialConsoleCommand.post request w
   = (Return (Table theader [mkRow "SerialConsole" 1]),
      mkWorld (update_pk (pk m) drop_serialconsole (db w))
              (trace w ++ [EvGet f;
                           EvDelete KSerialConsole (pk m) (1, [("data.SerialConsole", 1)])])))
  /\ (has_remotepower m = true ->
      DeleteRemotePowerCommand.post request w
      = (Return (Table theader [mkRow "RemotePower" 1]),
         mkWorld (update_pk (pk m) drop_remotepower (db w))
                 (trace w ++ [EvGet f;
                              EvDelete KRemotePower (pk m) (1, [("data.RemotePower", 1)])]))).
Proof.
  intros Hs Hv Hm. split; intros Hhas.
  - unfold has_serialconsole in Hhas.
    rewrite (serialconsole_validated request w f Hs Hv), Hm, serialconsole_action_run.
    destruct (serialconsole m); [|discriminate]. cbn [snd db trace].
    rewrite <- app_assoc. reflexivity.
  - unfold has_remotepower in Hhas.
    rewrite (remotepower_validated request w f Hs Hv), Hm, remotepower_action_run.
    destruct (remotepower m); [|discriminate]. cbn [snd db trace].
    rewrite <- app_assoc. reflexivity.
Qed.

(** X14. Deleting a sub-resource that exists: the answer is the one-row
    table of the sub-resource, the calls are the lookup and the delete, and
    afterwards the same fqdn resolves to the same machine without that
    sub-resource. *)
Theorem subresource_is_deleted `{ApiForms} (request : Request) (w : World)
        (f : string) (m : Machine) :
  is_superuser (user request) = true ->
  validated_fqdn request = Some f ->
  matching f (db w) = [m] ->
  (has_serialconsole m = true ->
   fst (DeleteSerialConsoleCommand.post request w)
   = Return (Table theader [mkRow "SerialConsole" 1])
   /\ trace (snd (DeleteSerialConsoleCommand.post request w))
      = trace w ++ [EvGet f;
                    EvDelete KSerialConsole (pk m) (1, [("data.SerialConsole", 1)])]
   /\ matching f (db (snd (DeleteSerialConsoleCommand.post request w)))
      = [drop_serialconsole m])
  /\ (has_remotepower m = true ->
      fst (DeleteRemotePowerCommand.post request w)
      = Return (Table theader [mkRow "RemotePower" 1])
      /\ trace (snd (DeleteRemotePowerCommand.post request w))
         = trace w ++ [EvGet f;
                       EvDelete KRemotePower (pk m) (1, [("data.RemotePower", 1)])]
      /\ matching f (db (snd (DeleteRemotePowerCommand.post request w)))
         = [drop_remotepower m]).
Proof.
  intros Hs Hv Hm.
  destruct (subresource_delete_run request w f m Hs Hv Hm) as [Hsc Hrp].
  split; intros Hhas.
  - rewrite (Hsc Hhas). cbn [fst snd db trace]. split; [reflexivity|].
    split; [reflexivity|].
    apply (matching_after_drop f drop_serialconsole m (db w)); [reflexivity | exact Hm].
  - rewrite (Hrp Hhas). cbn [fst snd db trace]. split; [reflexivity|].
    split; [reflexivity|].
    apply (matching_after_drop f drop_remotepower m (db w)); [reflexivity | exact Hm].
Qed.

Lemma subresource_is_deleted_witness :
  is_superuser (user (Sample.submit Sample.root Sample.credential "rack07.example.com")) = true
  /\ validated_fqdn (Sample.submit Sample.root Sample.credential "rack07.example.com")
     = Some "rack07.example.com"
  /\ matching "rack07.example.com" (db Fixture.world) = [Fixture.rack07]
  /\ has_remotepower Fixture.rack07 = true
  /\ matching "rack07.example.com"
       (db (snd (DeleteRemotePowerCommand.post
                   (Sample.submit Sample.root Sample.credential "rack07.example.com")
                   Fixture.world)))
     = [drop_remotepower Fixture.rack07].
Proof.
  do 4 (split; [reflexivity|]).
  destruct (subresource_is_deleted (H := Sample.forms)
              (Sample.submit Sample.root Sample.credential "rack07.example.com")
              Fixture.world "rack07.example.com" Fixture.rack07
              eq_refl eq_refl eq_refl) as [_ Hrp].
  exact (proj2 (proj2 (Hrp eq_refl))).
Defined.

(** X15. Deleting a sub-resource twice: the second request, run on the world
    the first one left, answers with the precondition failure ("Machine has
    no serial console!", "Machine has no remote power!") and changes
    nothing. *)
Theorem subresource_delete_twice `{ApiForms} (request : Request) (w : World)
        (f : string) (m : Machine) :
  is_superuser (user request) = true ->
  validated_fqdn request = Some f ->
  matching f (db w) = [m] ->
  (has_serialconsole m = true ->
   fst (DeleteSerialConsoleCommand.post
          request (snd (DeleteSerialConsoleCommand.post request w)))
   = Return (ErrorMessage "Machine has no serial console!")
   /\ db (snd (DeleteSerialConsoleCommand.post
                 request (snd (DeleteSerialConsoleCommand.post request w))))
      = db (snd (DeleteSerialConsoleCommand.post request w)))
  /\ (has_remotepower m = true ->
      fst (DeleteRemotePowerCommand.post
             request (snd (DeleteRemotePowerCommand.post request w)))
      = Return (ErrorMessage "Machine has no remote power!")
      /\ db (snd (DeleteRemotePowerCommand.post
                    request (snd (DeleteRemotePowerCommand.post request w))))
         = db (snd (DeleteRemotePowerCommand.post request w))).
Proof.
  intros Hs Hv Hm.
  destruct (subresource_delete_run request w f m Hs Hv Hm) as [Hsc Hrp].
  split; intros Hhas.
  - rewrite (Hsc Hhas). cbn [snd].
    rewrite (missing_serialconsole_run request
               (mkWorld (update_pk (pk m) drop_serialconsole (db w))
                        (trace w ++ [EvGet f;
                                     EvDelete KSerialConsole (pk m)
                                              (1, [("data.SerialConsole", 1)])]))
               f (drop_serialconsole m) Hs Hv
               (matching_after_drop f drop_serialconsole m (db w) (fun _ => eq_refl) Hm)
               eq_refl).
    split; reflexivity.
  - rewrite (Hrp Hhas). cbn [snd].
    rewrite (missing_remotepower_run request
               (mkWorld (update_pk (pk m) drop_remotepower (db w))
                        (trace w ++ [EvGet f;
                                     EvDelete KRemotePower (pk m)
                                              (1, [("data.RemotePower", 1)])]))
               f (drop_remotepower m) Hs Hv
               (matching_after_drop f drop_remotepower m (db w) (fun _ => eq_refl) Hm)
               eq_refl).
    split; reflexivity.
Qed.

Lemma subresource_delete_twice_witness :
  is_superuser (user (Sample.submit Sample.root Sample.credential "host01.example.com")) = true
  /\ validated_fqdn (Sample.submit Sample.root Sample.credential "host01.example.com")
     = Some "host01.example.com"
  /\ matching "host01.example.com" (db Sample.world) = [Sample.host01]
  /\ has_serialconsole Sample.host01 = true
  /\ fst (DeleteSerialConsoleCommand.post
            (Sample.submit Sample.root Sample.credential "host01.example.com")
            (snd (DeleteSerialConsoleCommand.post
                    (Sample.submit Sample.root Sample.credential "host01.example.com")
                    Sample.world)))
     = Return (ErrorMessage "Machine has no serial console!").
Proof.
  do 4 (split; [reflexivity|]).
  destruct (subresource_delete_twice (H := Sample.forms)
              (Sample.submit Sample.root Sample.credential "host01.example.com")
              Sample.world "host01.example.com" Sample.host01
              eq_refl eq_refl eq_refl) as [Hsc _].
  exact (proj1 (Hsc eq_refl)).
Defined.

Lemma update_pk_swap (p : nat) (d : list Machine) :
  update_pk p drop_remotepower (update_pk p drop_serialconsole d)
  = update_pk p drop_serialconsole (update_pk p drop_remotepower d).
Proof.
  unfold update_pk. rewrite !map_map. apply map_ext. intros x.
  destruct (pk x =? p) eqn:E; cbn [pk drop_serialconsole drop_remotepower];
    rewrite E; reflexivity.
Qed.

(** X16. The two sub-resource deletes commute: on a machine that has both a
    serial console and a remote power, deleting them in either order
    succeeds twice and ends in the same machine table, where the machine has
    neither. *)
Theorem subresource_deletes_commute `{ApiForms} (request : Request) (w : World)
        (f : string) (m : Machine) :
  is_superuser (user request) = true ->
  validated_fqdn request = Some f ->
  matching f (db w) = [m] ->
  has_serialconsole m = true ->
  has_remotepower m = true ->
  fst (DeleteRemotePowerCommand.post
         request (snd (DeleteSerialConsoleCommand.post request w)))
  = Return (Table theader [mkRow "RemotePower" 1])
  /\ fst (DeleteSerialConsoleCommand.post
            request (snd (DeleteRemotePowerCommand.post request w)))
     = Return (Table theader [mkRow "SerialConsole" 1])
  /\ db (snd (DeleteRemotePowerCommand.post
                request (snd (DeleteSerialConsoleCommand.post request w))))
     = db (snd (DeleteSerialConsoleCommand.post
                  request (snd (DeleteRemotePowerCommand.post request w))))
  /\ matching f (db (snd (DeleteRemotePowerCommand.post
                            request (snd (DeleteSerialConsoleCommand.post request w)))))
     = [drop_remotepower (drop_serialconsole m)].
Proof.
  intros Hs Hv Hm Hsc Hrp.
  destruct (subresource_delete_run request w f m Hs Hv Hm) as [E1 E2].
  rewrite (E1 Hsc), (E2 Hrp). cbn [snd].
  pose proof (matching_after_drop f drop_serialconsole m (db w) (fun _ => eq_refl) Hm)
    as Hm1.
  pose proof (matching_after_drop f drop_remotepower m (db w) (fun _ => eq_refl) Hm)
    as Hm2.
  destruct (subresource_delete_run request
              (mkWorld (update_pk (pk m) drop_serialconsole (db w))
                       (trace w ++ [EvGet f;
                                    EvDelete KSerialConsole (pk m)
                                             (1, [("data.SerialConsole", 1)])]))
              f (drop_serialconsole m) Hs Hv Hm1) as [_ E3].
  destruct (subresource_delete_run request
              (mkWorld (update_pk (pk m) drop_remotepower (db w))
                       (trace w ++ [EvGet f;
                                    EvDelete KRemotePower (pk m)
                                             (1, [("data.RemotePower", 1)])]))
              f (drop_remotepower m) Hs Hv Hm2) as [E4 _].
  rewrite (E3 Hrp), (E4 Hsc). cbn [fst snd db pk drop_serialconsole drop_remotepower].
  split; [reflexivity|]. split; [reflexivity|].
  split; [apply update_pk_swap|].
  apply (matching_after_drop f drop_remotepower (drop_serialconsole m)
                             (update_pk (pk m) drop_serialconsole (db w))
                             (fun _ => eq_refl) Hm1).
Qed.

Lemma subresource_deletes_commute_witness :
  is_superuser (user (Sample.submit Sample.root Sample.credential "rack07.example.com")) = true
  /\ validated_fqdn (Sample.submit Sample.root Sample.credential "rack07.example.com")
     = Some "rack07.example.com"
  /\ matching "rack07.example.com" (db Fixture.world) = [Fixture.rack07]
  /\ has_serialconsole Fixture.rack07 = true
  /\ has_remotepower Fixture.rack07 = true
  /\ db (snd (DeleteRemotePowerCommand.post
                (Sample.submit Sample.root Sample.credential "rack07.example.com")
                (snd (DeleteSerialConsoleCommand.post
                        (Sample.submit Sample.root Sample.credential "rack07.example.com")
                        Fixture.world))))
     = db (snd (DeleteSerialConsoleCommand.post
                  (Sample.submit Sample.root Sample.credential "rack07.example.com")
                  (snd (DeleteRemotePowerCommand.post
                          (Sample.submit Sample.root Sample.credential "rack07.example.com")
                          Fixture.world)))).
Proof.
  do 5 (split; [reflexivity|]).
  destruct (subresource_deletes_commute (H := Sample.forms)
              (Sample.submit Sample.root Sample.credential "rack07.example.com")
              Fixture.world "rack07.example.com" Fixture.rack07
              eq_refl eq_refl eq_refl eq_refl eq_refl) as (_ & _ & H3 & _).
  exact H3.
Defined.

(** ** What the execute operations keep *)

Lemma subresource_post_db `{ApiForms} (request : Request) (w : World) :
  (forall (A : Type) (proj : Machine -> A),
      (forall x, proj (drop_serialconsole x) = proj x) ->
      map proj (db (snd (DeleteSerialConsoleCommand.post request w))) = map proj (db w))
  /\ (forall (A : Type) (proj : Machine -> A),
         (forall x, proj (drop_remotepower x) = proj x) ->
         map proj (db (snd (DeleteRemotePowerCommand.post request w))) = map proj (db w)).
Proof.
  split; intros A proj Hproj; execute_cases request w; break_cases; cbn [snd db];
    try reflexivity; apply map_update_pk; exact Hproj.
Qed.

(** X17. Whatever the request, the sub-resource deletes neither remove nor
    rename a machine, and each leaves the other sub-resource of every
    machine alone. *)
Theorem subresource_deletes_keep_machines `{ApiForms} (request : Request) (w : World) :
  (map pk (db (snd (DeleteSerialConsoleCommand.post request w))) = map pk (db w)
   /\ map fqdn (db (snd (DeleteSerialConsoleCommand.post request w))) = map fqdn (db w)
   /\ map remotepower (db (snd (DeleteSerialConsoleCommand.post request w)))
      = map remotepower (db w))
  /\ (map pk (db (snd (DeleteRemotePowerCommand.post request w))) = map pk (db w)
      /\ map fqdn (db (snd (DeleteRemotePowerCommand.post request w))) = map fqdn (db w)
      /\ map serialconsole (db (snd (DeleteRemotePowerCommand.post request w)))
         = map serialconsole (db w)).
Proof.
  destruct (subresource_post_db request w) as [Hsc Hrp].
  repeat split; first [apply Hsc | apply Hrp]; reflexivity.
Qed.

Lemma machine_post_db `{ApiForms} (request : Request) (w : World) :
  db (snd (DeleteMachineCommand.post request w)) = db w
  \/ exists m : Machine,
      In m (db w)
      /\ db (snd (DeleteMachineCommand.post request w))
         = filter (fun x => negb (pk x =? pk m)) (db w).
Proof.
  execute_cases request w; break_cases; cbn [snd db];
    try (left; reflexivity);
    right; match goal with
           | Hm : matching _ _ = [?m] |- _ =>
               exists m; split; [apply (matching_in _ _ _ Hm) | reflexivity]
           end.
Qed.

(** X18. Machine delete only removes: whatever the request, every machine
    stored afterwards was stored before, as it was. *)
Theorem machine_delete_only_removes `{ApiForms} (request : Request) (w : World)
        (x : Machine) :
  In x (db (snd (DeleteMachineCommand.post request w))) -> In x (db w).
Proof.
  destruct (machine_post_db request w) as [E|(m & _ & E)]; rewrite E; [tauto|].
  intros Hin. apply filter_In in Hin. tauto.
Qed.

Lemma machine_delete_only_removes_witness :
  In Sample.vm02
     (db (snd (DeleteMachineCommand.post
                 (Sample.submit Sample.root Sample.credential "host01.example.com")
                 Sample.world)))
  /\ In Sample.vm02 (db Sample.world).
Proof.
  assert (Hin : In Sample.vm02
                   (db (snd (DeleteMachineCommand.post
                               (Sample.submit Sample.root Sample.credential
                                              "host01.example.com")
                               Sample.world))))
    by (left; reflexivity).
  split; [exact Hin|].
  exact (machine_delete_only_removes (H := Sample.forms)
           (Sample.submit Sample.root Sample.credential "host01.example.com")
           Sample.world Sample.vm02 Hin).
Defined.

Lemma nodup_map_filter {A B : Type} (proj : A -> B) (keep : A -> bool) (l : list A) :
  NoDup (map proj l) -> NoDup (map proj (filter keep l)).
Proof.
  induction l as [|a l IH]; intros Hn; [exact Hn|].
  cbn [map] in Hn. inversion Hn as [|? ? Hnotin Hrest]; subst.
  cbn [filter]. destruct (keep a); [|auto].
  cbn [map]. constructor; [|auto].
  intros Hin. apply Hnotin. apply in_map_iff in Hin as (y & Hy & Hin).
  apply filter_In in Hin. apply in_map_iff. exists y. tauto.
Qed.

(** X19. When primary keys identify the stored machines, they still do
    after any execute operation. *)
Theorem pk_unique_is_kept `{ApiForms} (request : Request) (w : World) :
  pk_unique (db w) ->
  Forall (fun operation : Request -> M Response =>
            pk_unique (db (snd (operation request w))))
         execute_operations.
Proof.
  intros Hu. unfold execute_operations, pk_unique in *.
  repeat (apply Forall_cons || apply Forall_nil).
  - destruct (machine_post_db request w) as [E|(m & _ & E)]; rewrite E;
      [exact Hu | apply nodup_map_filter; exact Hu].
  - destruct (subresource_post_db request w) as [E _].
    rewrite (E nat pk (fun _ => eq_refl)). exact Hu.
  - destruct (subresource_post_db request w) as [_ E].
    rewrite (E nat pk (fun _ => eq_refl)). exact Hu.
Qed.

Lemma sample_pk_unique : pk_unique (db Sample.world).
Proof.
  unfold pk_unique. cbn.
  repeat (apply NoDup_cons; [cbn; intros Hin; repeat destruct Hin as [Hin|Hin];
                             (discriminate Hin || exact Hin)|]).
  apply NoDup_nil.
Defined.

Lemma pk_unique_is_kept_witness :
  pk_unique (db Sample.world)
  /\ Forall (fun operation : Request -> M Response =>
               pk_unique
                 (db (snd (operation
                             (Sample.submit Sample.root Sample.credential
                                            "vm05.example.com")
                             Sample.world))))
            execute_operations.
Proof.
  split; [exact sample_pk_unique|].
  exact (pk_unique_is_kept (H := Sample.forms)
           (Sample.submit Sample.root Sample.credential "vm05.example.com")
           Sample.world sample_pk_unique).
Defined.

Lemma filter_absent_pk (p : nat) (d : list Machine) :
  ~ In p (map pk d) -> filter (fun x => negb (pk x =? p)) d = d.
Proof.
  induction d as [|a d IH]; intros Hn; [reflexivity|].
  cbn [filter]. cbn [map In] in Hn.
  destruct (Nat.eqb_spec (pk a) p) as [e|_]; [exfalso; apply Hn; left; exact e|].
  cbn [negb]. rewrite IH; [reflexivity|]. intros Hin. apply Hn. right. exact Hin.
Qed.

Lemma delete_removes_one (m : Machine) (d : list Machine) :
  pk_unique d -> In m d ->
  length d = S (length (filter (fun x => negb (pk x =? pk m)) d)).
Proof.
  unfold pk_unique. induction d as [|a d IH]; intros Hu Hin; [destruct Hin|].
  cbn [map] in Hu. inversion Hu as [|? ? Hnotin Hrest]; subst.
  cbn [filter length].
  destruct (Nat.eqb_spec (pk a) (pk m)) as [e|n]; cbn [negb].
  - rewrite e in Hnotin. rewrite (filter_absent_pk (pk m) d Hnotin). reflexivity.
  - cbn [length]. f_equal. apply IH; [exact Hrest|].
    destruct Hin as [->|Hin]; [congruence | exact Hin].
Qed.

(** X20. When primary keys identify the stored machines, a machine delete
    that answers with a table has removed exactly one machine. *)
Theorem table_means_one_machine_less `{ApiForms} (request : Request) (w : World)
        (h : list (string * string)) (rows : list Row) :
  pk_unique (db w) ->
  fst (DeleteMachineCommand.post request w) = Return (Table h rows) ->
  length (db w) = S (length (db (snd (DeleteMachineCommand.post request w)))).
Proof.
  intros Hu Ht.
  destruct (machine_post_table request w h rows Ht)
    as (f & m & before & _ & _ & Hm & _ & _ & _ & Hw).
  rewrite Hw. cbn [db].
  apply delete_removes_one; [exact Hu|]. apply (matching_in f m (db w) Hm).
Qed.

Lemma table_means_one_machine_less_witness :
  pk_unique (db Sample.world)
  /\ fst (DeleteMachineCommand.post
            (Sample.submit Sample.root Sample.credential "vm05.example.com") Sample.world)
     = Return (Table theader [mkRow "Machine" 1])
  /\ length (db Sample.world)
     = S (length (db (snd (DeleteMachineCommand.post
                             (Sample.submit Sample.root Sample.credential
                                            "vm05.example.com")
                             Sample.world)))).
Proof.
  split; [exact sample_pk_unique|]. split; [reflexivity|].
  exact (table_means_one_machine_less (H := Sample.forms)
           (Sample.submit Sample.root Sample.credential "vm05.example.com")
           Sample.world theader [mkRow "Machine" 1] sample_pk_unique eq_refl).
Defined.


(** ** Calls and logging *)

Lemma validation_message_differs (s : string) :
  Return (ErrorMessage (newline ++ s)%string)
  <> Return (ErrorMessage "Something went wrong!").
Proof. intros E. injection E as E. discriminate E. Qed.

(** X21. The calls of an execute operation, whatever the request: none at
    all, or the lookup first and once.  The safety net logs exactly when the
    answer is "Something went wrong!": no other answer comes with a log
    entry, and that answer never comes without one. *)
Theorem lookup_first_and_log_on_failure `{ApiForms} (request : Request) (w : World) :
  Forall (fun operation : Request -> M Response =>
            exists calls : list Event,
              trace (snd (operation request w)) = trace w ++ calls
              /\ (calls = []
                  \/ exists (f : string) (later : list Event),
                      calls = EvGet f :: later /\ forall g, ~ In (EvGet g) later)
              /\ ((exists e : Exn, In (EvLog e) calls)
                  <-> fst (operation request w)
                      = Return (ErrorMessage "Something went wrong!")))
         execute_operations.
Proof.
  unfold execute_operations.
  repeat (apply Forall_cons || apply Forall_nil);
    execute_cases request w; break_cases; cbn [fst snd db trace];
    unfold only_superusers;
    first
      [ exists []; split; [symmetry; apply app_nil_r|];
        split; [left; reflexivity|];
        split; [intros (? & [])|];
        let X := fresh in
        intros X; exfalso; revert X;
        first [apply validation_message_differs | discriminate]
      | eexists; split; [rewrite <- ?app_assoc; reflexivity|];
        split; [right; eexists; eexists; split;
                [reflexivity | cbn; intros g Hin; intuition discriminate]|];
        split; [intros (e' & Hin); cbn in Hin; intuition discriminate|];
        let X := fresh in
        intros X; first [discriminate X | eexists; cbn; eauto 6] ].
Qed.

(** ** Describe, for every request *)

(** X22. Whatever the request, a describe operation hands the world back as
    it received it and never raises; it answers the auth-required response
    exactly when the user is anonymous or the request carries no credential,
    also for a superuser. *)
Theorem describe_is_read_only `{ApiForms} (request : Request) (w : World) :
  Forall (fun operation : Request -> M Response =>
            snd (operation request w) = w
            /\ (exists response : Response, fst (operation request w) = Return response)
            /\ (fst (operation request w) = Return AuthRequired
                <-> is_AnonymousUser (user request) = true \/ auth request = None))
         describe_operations.
Proof.
  unfold describe_operations.
  repeat (apply Forall_cons || apply Forall_nil);
    unfold DeleteMachineCommand.get, DeleteSerialConsoleCommand.get,
           DeleteRemotePowerCommand.get, auth_required;
    destruct (is_AnonymousUser (user request)), (auth request),
             (is_superuser (user request));
    cbn; (split; [reflexivity|]); (split; [eexists; reflexivity|]);
    split; try (intros E; discriminate E); try (intros [E|E]; discriminate E); auto.
Qed.

(** ** From the dispatcher to the handlers *)

(** X23. The redirect of the dispatcher leads to the handler pair of the
    item: the location is served, for GET, by a describe operation whose
    form (for a superuser with a credential) names that same location as its
    submit path, and, for POST, by an execute operation. *)
Theorem redirect_leads_to_handler `{ApiForms} (request : Request) (w : World)
        (location : string) :
  fst (DeleteCommand.get request w) = Return (Redirect location) ->
  exists describe execute : Request -> M Response,
    serve GET location = Some describe
    /\ serve POST location = Some execute
    /\ In describe describe_operations
    /\ In execute execute_operations
    /\ forall (follow : Request) (w' : World) (credential : Token),
        is_AnonymousUser (user follow) = false ->
        auth follow = Some credential ->
        is_superuser (user follow) = true ->
        describe follow w' = (Return (Input [fqdn_field] location ["fqdn"]), w').
Proof.
  intros Hr.
  destruct (GET_args request) as [args|] eqn:Ha;
    [|unfold DeleteCommand.get in Hr; rewrite Ha in Hr; discriminate].
  destruct (PyStr.split args) as [|first rest] eqn:Hs.
  { unfold DeleteCommand.get in Hr. rewrite Ha, Hs in Hr.
    destruct (PyStr.truthy args); discriminate. }
  rewrite (dispatch_tokens request w _ _ _ Ha Hs) in Hr. cbv zeta in Hr.
  destruct (String.eqb (PyStr.lower first) Delete.MACHINE).
  { destruct (negb (length rest =? 0)); [discriminate|]. injection Hr as <-.
    exists DeleteMachineCommand.get, DeleteMachineCommand.post.
    do 2 (split; [reflexivity|]). split; [left; reflexivity|].
    split; [left; reflexivity|].
    intros follow w' credential Hu Hc Hsu.
    unfold DeleteMachineCommand.get, auth_required. rewrite Hu, Hc, Hsu. reflexivity. }
  destruct (String.eqb (PyStr.lower first) Delete.SERIALCONSOLE).
  { destruct (negb (length rest =? 0)); [discriminate|]. injection Hr as <-.
    exists DeleteSerialConsoleCommand.get, DeleteSerialConsoleCommand.post.
    do 2 (split; [reflexivity|]). split; [right; left; reflexivity|].
    split; [right; left; reflexivity|].
    intros follow w' credential Hu Hc Hsu.
    unfold DeleteSerialConsoleCommand.get, auth_required. rewrite Hu, Hc, Hsu.
    reflexivity. }
  destruct (String.eqb (PyStr.lower first) Delete.REMOTEPOWER).
  { destruct (negb (length rest =? 0)); [discriminate|]. injection Hr as <-.
    exists DeleteRemotePowerCommand.get, DeleteRemotePowerCommand.post.
    do 2 (split; [reflexivity|]). split; [right; right; left; reflexivity|].
    split; [right; right; left; reflexivity|].
    intros follow w' credential Hu Hc Hsu.
    unfold DeleteRemotePowerCommand.get, auth_required. rewrite Hu, Hc, Hsu.
    reflexivity. }
  discriminate.
Qed.

Lemma redirect_leads_to_handler_witness :
  fst (DeleteCommand.get (Sample.dispatch Sample.root (Some "machine")) Sample.world)
  = Return (Redirect "/machine/delete")
  /\ exists describe execute : Request -> M Response,
      serve GET "/machine/delete" = Some describe
      /\ serve POST "/machine/delete" = Some execute
      /\ In describe describe_operations
      /\ In execute execute_operations
      /\ forall (follow : Request) (w' : World) (credential : Token),
          is_AnonymousUser (user follow) = false ->
          auth follow = Some credential ->
          is_superuser (user follow) = true ->
          describe follow w'
          = (Return (Input [fqdn_field] "/machine/delete" ["fqdn"]), w').
Proof.
  split; [reflexivity|].
  exact (redirect_leads_to_handler (H := Sample.forms)
           (Sample.dispatch Sample.root (Some "machine")) Sample.world
           "/machine/delete" eq_refl).
Defined.

(** ** Kind labels in the table *)

Lemma replace_absent (old new s : string) :
  occurs old s = false -> PyStr.replace old new s = s.
Proof.
  unfold PyStr.replace. induction s as [|c s IH]; intros Ho; [reflexivity|].
  cbn [occurs] in Ho. apply orb_false_iff in Ho as [Hs Ho].
  change (PyStr.replace_from old new 0 (String c s))
    with (if PyStr.startswith old (String c s)
          then (new ++ PyStr.replace_from old new (String.length old - 1) s)%string
          else String c (PyStr.replace_from old new 0 s)).
  rewrite Hs, (IH Ho). reflexivity.
Qed.

(** X24. A kind label in which [data.] does not occur, such as the label of
    a model of another application, is reported unchanged, with its count:
    only labels of the [data] namespace are shortened. *)
Theorem foreign_label_is_kept (counts : dict nat) (label : string) (n : nat) :
  occurs "data." label = false ->
  In (label, n) counts ->
  In (mkRow label n) (rows_of counts).
Proof.
  intros Ho Hin. unfold rows_of. apply in_map_iff.
  exists (label, n). split; [|exact Hin].
  cbn [fst snd]. rewrite (replace_absent "data." "" label Ho). reflexivity.
Qed.

Lemma foreign_label_is_kept_witness :
  occurs "data." "auth.Token" = false
  /\ In ("auth.Token", 2) [("data.Machine", 1); ("auth.Token", 2)]
  /\ In (mkRow "auth.Token" 2) (rows_of [("data.Machine", 1); ("auth.Token", 2)]).
Proof.
  split; [reflexivity|]. split; [right; left; reflexivity|].
  apply (foreign_label_is_kept [("data.Machine", 1); ("auth.Token", 2)] "auth.Token" 2);
    [reflexivity | right; left; reflexivity].
Defined.

(** ** The credential *)

(** X25. The credential of a request is checked by the describe operations
    only: without one they answer the auth-required response, whoever the
    user is, while each execute operation answers exactly as it would had
    the request carried a credential. *)
Theorem credential_is_checked_by_describe_only `{ApiForms} (request : Request)
        (w : World) (credential : Token) :
  auth request = None ->
  Forall (fun operation : Request -> M Response =>
            operation request w = (Return AuthRequired, w))
         describe_operations
  /\ Forall (fun operation : Request -> M Response =>
               operation request w
               = operation (mkRequest (user request) (Some credential)
                                      (GET_args request) (body request)) w)
            execute_operations.
Proof.
  intros Ha. split; [exact (describe_needs_credential request w Ha)|].
  unfold execute_operations.
  repeat (apply Forall_cons || apply Forall_nil); reflexivity.
Qed.

Lemma credential_is_checked_by_describe_only_witness :
  auth (Sample.submit Sample.root None "vm05.example.com") = None
  /\ DeleteMachineCommand.get (Sample.submit Sample.root None "vm05.example.com")
                              Sample.world
     = (Return AuthRequired, Sample.world)
  /\ DeleteMachineCommand.post (Sample.submit Sample.root None "vm05.example.com")
                               Sample.world
     = DeleteMachineCommand.post
         (Sample.submit Sample.root (Some (mkToken "0123456789abcdef")) "vm05.example.com")
         Sample.world.
Proof.
  split; [reflexivity|].
  destruct (credential_is_checked_by_describe_only (H := Sample.forms)
              (Sample.submit Sample.root None "vm05.example.com") Sample.world
              (mkToken "0123456789abcdef") eq_refl) as [Hd He].
  unfold describe_operations in Hd. unfold execute_operations in He.
  split; [exact (Forall_inv Hd) | exact (Forall_inv He)].
Defined.

(** ** Bodies that carry no readable form *)

Example undecodable_body_escapes :
  DeleteMachineCommand.post
    (mkRequest Sample.root Sample.credential None Undecodable) Sample.world
  = (Raise UnicodeDecodeError, Sample.world).
Proof. reflexivity. Qed.

Example json_list_body_escapes :
  DeleteSerialConsoleCommand.post
    (mkRequest Sample.root Sample.credential None (Parsed (JArray []))) Sample.world
  = (Raise TypeError, Sample.world).
Proof. reflexivity. Qed.

Example form_member_missing_escapes :
  DeleteRemotePowerCommand.post
    (mkRequest Sample.root Sample.credential None
               (Parsed (JObject [("fqdn", JString "host01.example.com")])))
    Sample.world
  = (Raise (KeyError "form"), Sample.world).
Proof. reflexivity. Qed.

Example form_member_list_escapes :
  DeleteMachineCommand.post
    (mkRequest Sample.root Sample.credential None
               (Parsed (JObject [("form", JArray [JString "host01.example.com"])])))
    Sample.world
  = (Raise AttributeError, Sample.world).
Proof. reflexivity. Qed.

Example refused_before_the_body_is_read :
  DeleteMachineCommand.post
    (mkRequest Sample.alice Sample.credential None Undecodable) Sample.world
  = (Return (ErrorMessage only_superusers), Sample.world).
Proof. reflexivity. Qed.
